(** * AiLessonPlanner: the lesson-plan pipeline of [app.py] and [main.py]

    A shallow embedding of the two entry points of the repository:
    the FastAPI endpoint of [app.py] and the Streamlit script of [main.py].
    Both extract the text of an uploaded PDF, ask a chat-completion service
    for a lesson plan, and lay the plan out as a PDF with one generated
    illustration per section.

    - Python [str] values are lists of Unicode code points.
    - Calls into third-party libraries and remote services (PyMuPDF,
      requests, base64, Pillow) are members of the class [Externals];
      each call that leaves the process is recorded in a call log.
    - Exceptions are the left summand of the result of a computation.
    - ReportLab flowables are data. Building a [Paragraph] parses its text
      as markup and may raise; whether it does is a member of [Externals],
      consulted for every paragraph made from the text of the plan (the
      title is a constant without markup). Laying the story out with
      [doc.build] is taken to succeed, so a document is identified with
      the story it is built from; lengths in points are integers ([inch]
      is 72).
    - [logger.info]/[logger.error] lines and the static Streamlit page text
      have no influence on any value computed here and are not modelled. *)

From Stdlib Require Import List ZArith NArith Lia Bool.
From Stdlib Require Import Strings.String Strings.Ascii Strings.Byte.
Import ListNotations.

Set Warnings "-register-all,-notation-for-abbreviation".

(* ================================================================== *)
(** * Python strings *)
(* ================================================================== *)

Module Py.

(** A character is its code point; a [str] is the list of its characters. *)
Notation char := N (only parsing).
Notation str := (list N) (only parsing).
Notation bytes := (list byte) (only parsing).

(** Source literals.  [lit] reads a literal written the way the Python
    source writes it: every character stands for itself, and the two
    characters backslash, n stand for a line feed. *)
Fixpoint lit (s : string) : str :=
  match s with
  | EmptyString => []
  | String "\"%char (String "n"%char s') => 10%N :: lit s'
  | String c s' => N_of_ascii c :: lit s'
  end.

Definition NL : str := [10%N].
Definition COLON : str := [58%N].
Definition COMMA : str := [44%N].

(** [str.isspace] on one character: the code points CPython's
    [_PyUnicode_IsWhitespace] accepts. *)
Definition isspace (c : char) : bool :=
  ((9 <=? c) && (c <=? 13) || (28 <=? c) && (c <=? 32)
   || (c =? 133) || (c =? 160) || (c =? 5760)
   || (8192 <=? c) && (c <=? 8202)
   || (c =? 8232) || (c =? 8233) || (c =? 8239) || (c =? 8287)
   || (c =? 12288))%N.

(** [s.startswith(pre)] *)
Fixpoint startswith (pre s : str) : bool :=
  match pre, s with
  | [], _ => true
  | _ :: _, [] => false
  | p :: pre', c :: s' => (p =? c)%N && startswith pre' s'
  end.

(** [s.endswith(suf)] *)
Definition endswith (suf s : str) : bool :=
  startswith (rev suf) (rev s).

(** [sub in s] *)
Fixpoint contains (sub s : str) : bool :=
  startswith sub s ||
  match s with
  | [] => false
  | _ :: s' => contains sub s'
  end.

(** [maxsplit]: [None] is Python's default (-1, no limit). *)
Definition may_split (maxsplit : option nat) : bool :=
  match maxsplit with
  | Some O => false
  | _ => true
  end.

Definition one_less (maxsplit : option nat) : option nat :=
  match maxsplit with
  | Some n => Some (pred n)
  | None => None
  end.

(** [s.split(sep, maxsplit)] for a non-empty [sep] (Python raises
    [ValueError] on an empty one; no call site passes one).  The scan goes
    left to right; [skip] counts the characters of a separator just matched
    that are still to be passed over. *)
Fixpoint split_from (sep : str) (maxsplit : option nat) (skip : nat)
         (s : str) : list str :=
  match s with
  | [] => [[]]
  | c :: s' =>
      match skip with
      | S k => split_from sep maxsplit k s'
      | O =>
          if may_split maxsplit && startswith sep s
          then [] :: split_from sep (one_less maxsplit) (pred (List.length sep)) s'
          else match split_from sep maxsplit 0 s' with
               | piece :: rest => (c :: piece) :: rest
               | [] => [[c]]
               end
      end
  end.

Definition split (sep : str) (maxsplit : option nat) (s : str) : list str :=
  split_from sep maxsplit 0 s.

(** [s.lstrip()], [s.rstrip()], [s.strip()] without argument. *)
Fixpoint lstrip (s : str) : str :=
  match s with
  | [] => []
  | c :: s' => if isspace c then lstrip s' else s
  end.

Fixpoint rstrip (s : str) : str :=
  match s with
  | [] => []
  | c :: s' =>
      match rstrip s' with
      | [] => if isspace c then [] else [c]
      | r => c :: r
      end
  end.

Definition strip (s : str) : str := rstrip (lstrip s).

(** [sep.join(parts)] *)
Fixpoint join (sep : str) (parts : list str) : str :=
  match parts with
  | [] => []
  | [p] => p
  | p :: ps => p ++ sep ++ join sep ps
  end.

(** Truth value of a string: [if s:]. *)
Definition truthy (s : str) : bool :=
  match s with
  | [] => false
  | _ :: _ => true
  end.

End Py.

Import Py.

(* ================================================================== *)
(** * Exceptions, JSON values, HTTP messages *)
(* ================================================================== *)

(** The exceptions the two programs raise themselves or receive from the
    libraries they call. *)
Inductive exn :=
| HTTPException (status_code : Z) (detail : str)   (* fastapi *)
| HTTPError (status_code : Z)                      (* requests, raise_for_status *)
| KeyError (key : str)
| IndexError
| TypeError
| AttributeError
| ValueError
| LibraryError (message : str).                    (* raised inside a library call *)

Definition result (A : Type) : Type := (exn + A)%type.

(** A decoded JSON document, as [response.json()] returns it. A float is
    kept by its decimal text. *)
Inductive json :=
| JNull
| JBool (b : bool)
| JInt (z : Z)
| JFloat (text : str)
| JString (s : str)
| JArray (items : list json)
| JObject (fields : list (str * json)).

Definition str_eqb (a b : str) : bool :=
  (List.length a =? List.length b)%nat && startswith a b.

Fixpoint dict_get (key : str) (fields : list (str * json)) : option json :=
  match fields with
  | [] => None
  | (k, v) :: rest => if str_eqb key k then Some v else dict_get key rest
  end.

(** [j[key]] with a string key. *)
Definition getitem_key (j : json) (key : str) : result json :=
  match j with
  | JObject fields =>
      match dict_get key fields with
      | Some v => inr v
      | None => inl (KeyError key)
      end
  | _ => inl TypeError
  end.

(** [j[0]] *)
Definition getitem_0 (j : json) : result json :=
  match j with
  | JArray items =>
      match items with
      | v :: _ => inr v
      | [] => inl IndexError
      end
  | JString s =>
      match s with
      | c :: _ => inr (JString [c])
      | [] => inl IndexError
      end
  | JObject _ => inl (KeyError (lit "0"))   (* the keys of a decoded object are strings *)
  | _ => inl TypeError
  end.

(** A method of [str] called on a JSON value. *)
Definition as_str (j : json) : result str :=
  match j with
  | JString s => inr s
  | _ => inl AttributeError
  end.

Record request := Request {
  url : str;
  headers : list (str * str);
  json_payload : json
}.

Record response := Response {
  status : Z;
  body_json : result json      (* what [response.json()] does *)
}.

(* ================================================================== *)
(** * ReportLab flowables *)
(* ================================================================== *)

Inductive sheet_style := Title | Heading2 | BodyText | Bullet.

(** A paragraph style taken from [getSampleStyleSheet()], with the two
    attributes the programs assign; [None] leaves the sheet's value. *)
Record style := Style {
  sheet : sheet_style;
  alignment : option Z;
  leading : option Z
}.

Definition TA_CENTER : Z := 1.
Definition TA_JUSTIFY : Z := 4.
Definition inch : Z := 72.

Inductive flowable :=
| Paragraph (text : str) (st : style)
| Spacer (width height : Z)
| Image (data : bytes) (width height : Z) (hAlign : str)
| ListItem (content : flowable)
| ListFlowable (items : list flowable) (bulletType : str).

(** The buffer [create_pdf] returns: the document [SimpleDocTemplate.build]
    lays out from a story, on letter pages with margins 72/72/72/18. *)
Inductive pdf_buffer := DocBuild (story : list flowable).

(* ================================================================== *)
(** * Calls that leave the program, and the monad that records them *)
(* ================================================================== *)

Inductive event :=
| FitzOpen (stream : bytes)
| RequestsPost (req : request)
| StError (body : str)
| StTextArea (label value : str) (height : Z)
| StButton (label : str)
| StDownloadButton (label : str) (data : pdf_buffer) (file_name mime : str).

Definition log := list event.

(** The libraries and services both programs call. A remote answer may
    depend on everything that happened before the call. *)
Class Externals := {
  page : Type;
  fitz_open : bytes -> result (list page);       (* fitz.open(stream=, filetype="pdf") *)
  get_text : page -> result str;                 (* page.get_text("text") *)
  requests_post : log -> request -> result response;
  b64decode : str -> result bytes;               (* base64.b64decode *)
  pil_save_png : bytes -> result bytes;          (* PILImage.open(BytesIO(d)).save(b, "PNG") *)
  str_exn : exn -> str;                          (* str(e) *)
  environ_key : option str;                      (* os.environ.get("DEEP_INFRA_API_KEY") *)
  paragraph_error : str -> option exn            (* what Paragraph(text, style) raises, if anything *)
}.

Definition M (A : Type) : Type := log -> result A * log.

Definition ret {A} (a : A) : M A := fun w => (inr a, w).

Definition raise {A} (e : exn) : M A := fun w => (inl e, w).

Definition bind {A B} (m : M A) (k : A -> M B) : M B :=
  fun w =>
    match m w with
    | (inr a, w') => k a w'
    | (inl e, w') => (inl e, w')
    end.

Definition lift {A} (r : result A) : M A := fun w => (r, w).

Definition emit (e : event) : M unit := fun w => (inr tt, w ++ [e]).

(** [try: m  except Exception as e: handler e] *)
Definition try_except {A} (m : M A) (handler : exn -> M A) : M A :=
  fun w =>
    match m w with
    | (inr a, w') => (inr a, w')
    | (inl e, w') => handler e w'
    end.

Declare Scope py_scope.
Delimit Scope py_scope with py.
Notation "x <- m ;; k" := (bind m (fun x => k))
  (at level 61, m at next level, right associativity) : py_scope.
Notation "m ;;; k" := (bind m (fun _ => k))
  (at level 61, right associativity) : py_scope.
Open Scope py_scope.

(** [for x in xs: s = body x s], the state being the locals the body
    updates. *)
Fixpoint for_each {A S} (xs : list A) (body : A -> S -> M S) (s : S) : M S :=
  match xs with
  | [] => ret s
  | x :: xs' => s' <- body x s ;; for_each xs' body s'
  end.

(** [[f(x) for x in xs]] where [f] may raise. *)
Fixpoint comprehension {A B} (f : A -> result B) (xs : list A) : result (list B) :=
  match xs with
  | [] => inr []
  | x :: xs' =>
      match f x with
      | inl e => inl e
      | inr y =>
          match comprehension f xs' with
          | inl e => inl e
          | inr ys => inr (y :: ys)
          end
      end
  end.

(** [a, b = parts] *)
Definition unpack2 (parts : list str) : result (str * str) :=
  match parts with
  | [a; b] => inr (a, b)
  | _ => inl ValueError
  end.

(** [response.raise_for_status()] *)
Definition raise_for_status (r : response) : M unit :=
  if ((400 <=? status r) && (status r <? 600))%Z
  then raise (HTTPError (status r))
  else ret tt.

Section Shared.
Context {ext : Externals}.

(** [requests.post(url, json=payload, headers=headers)] *)
Definition post (req : request) : M response :=
  fun w => (requests_post w req, w ++ [RequestsPost req]).

(** [os.getenv("DEEP_INFRA_API_KEY", <fallback>)] *)
Definition deep_infra_api_key : str :=
  match environ_key with
  | Some k => k
  | None => lit "VxCqTQoMdguLd8Tp6m3U4CcFz7Jc3bZ0"
  end.

Definition base_url : str := lit "https://api.deepinfra.com/v1/openai".

Definition auth_headers : list (str * str) :=
  [(lit "Authorization", lit "Bearer " ++ deep_infra_api_key)].

(** [Paragraph(text, style)]: ReportLab parses [text] as markup while it
    builds the paragraph, and raises on markup it cannot read. *)
Definition paragraph (text : str) (st : style) : result flowable :=
  match paragraph_error text with
  | Some e => inl e
  | None => inr (Paragraph text st)
  end.

End Shared.

(* ================================================================== *)
(** * [app.py]: the FastAPI endpoint *)
(* ================================================================== *)

Module App.
Section Program.
Context {ext : Externals}.

(** [extract_text_from_pdf] *)
Definition extract_text_from_pdf (pdf_file : bytes) : M str :=
  try_except
    (emit (FitzOpen pdf_file) ;;;
     doc <- lift (fitz_open pdf_file) ;;
     texts <- lift (comprehension get_text doc) ;;
     ret (join [] texts))
    (fun e =>
       raise (HTTPException 500 (lit "PDF extraction failed: " ++ str_exn e))).

Definition prompt_head : str :=
  List.concat
    [lit "\n";
     lit "        \n";
     lit "Based on the following textbook chapter content:\n";
     lit "\n"].

Definition prompt_tail : str :=
  List.concat
    [lit "\n";
     lit "\n";
     lit "Please generate a comprehensive lesson plan for teachers, structured into three distinct sections:\n";
     lit "\n";
     lit "Introduction: Create an engaging introduction that captures students' attention and effectively introduces the key concepts of the chapter.\n";
     lit "Output Format:\n";
     lit "Paragraph: Start with a brief introduction to the key concept(s) of the chapter.\n";
     lit "Key Question: Pose an open-ended question to engage students and spark curiosity.\n";
     lit "Transition: Summarize the introduction and link it to the main body of the lesson.\n";
     lit "\n";
     lit "Main Body: Present the core lesson material in a clear and organized manner. Focus on detailed explanations and relevant real-world examples that facilitate student understanding of the chapter's content. Ensure the material is logically sequenced.\n";
     lit "Output Format:\n";
     lit "Paragraph: Provide a detailed explanation of the key concept(s).\n";
     lit "Bullet Points: List the critical components, definitions, or facts.\n";
     lit "Detailed Explanation: Describe the process or concept step-by-step.\n";
     lit "Transition: Conclude the main body and prepare the students for the class activity.\n";
     lit "\n";
     lit "Class Activity: Design an interactive class activity that reinforces the lesson objectives and promotes active participation. The activity should seamlessly connect back to both the introduction and the main body of the lesson.\n";
     lit "Output Format:\n";
     lit "\n";
     lit "Activity Name: Provide a creative name for the activity.\n";
     lit "Bullet Points: Describe the steps or materials required for the activity.\n";
     lit "Objective: Explain how the activity supports learning and connects to the chapter" ++ [8217%N] ++ lit "s content.\n";
     lit "Debrief: Summarize the activity and link it back to the key concepts learned in the lesson.\n";
     lit "Additionally, ensure that each section is well-structured and maintains contextual alignment with the others. For example, if I choose to regenerate the main body, it should not disrupt the coherence of the introduction and class activity. Similarly, any updates to the class activity should remain consistent with the themes presented in the other two sections.\n";
     lit "    3. Class Activity: Design an interactive class activity that reinforces the lesson objectives and promotes active participation.\n";
     lit "    "].

(** [generate_lesson_plan] *)
Definition prompt (extracted_text : str) : str :=
  prompt_head ++ extracted_text ++ prompt_tail.

Definition chat_request (extracted_text : str) : request :=
  Request (base_url ++ lit "/chat/completions") auth_headers
    (JObject
       [(lit "model", JString (lit "meta-llama/Meta-Llama-3-70B-Instruct"));
        (lit "messages",
         JArray [JObject [(lit "role", JString (lit "user"));
                          (lit "content", JString (prompt extracted_text))]]);
        (lit "max_tokens", JInt 1000)]).

Definition generate_lesson_plan (extracted_text : str) : M str :=
  response <- post (chat_request extracted_text) ;;
  raise_for_status response ;;;
  payload <- lift (body_json response) ;;
  choices <- lift (getitem_key payload (lit "choices")) ;;
  choice <- lift (getitem_0 choices) ;;
  message <- lift (getitem_key choice (lit "message")) ;;
  content <- lift (getitem_key message (lit "content")) ;;
  text <- lift (as_str content) ;;
  ret (strip text).

(** [generate_image_from_text] *)
Definition image_url : str :=
  lit "https://api.deepinfra.com/v1/inference/black-forest-labs/FLUX-1-schnell".

Definition image_request (text : str) : request :=
  Request image_url auth_headers (JObject [(lit "prompt", JString text)]).

Definition generate_image_from_text (text : str) : M bytes :=
  response <- post (image_request text) ;;
  raise_for_status response ;;;
  payload <- lift (body_json response) ;;
  images <- lift (getitem_key payload (lit "images")) ;;
  first <- lift (getitem_0 images) ;;
  data_uri <- lift (as_str first) ;;
  image_data_base64 <-
    lift (match nth_error (split COMMA None data_uri) 1 with
          | Some piece => inr piece
          | None => inl IndexError
          end) ;;
  image_data <- lift (b64decode image_data_base64) ;;
  buffer <- lift (pil_save_png image_data) ;;
  ret buffer.

(** [create_pdf] *)
Definition title_style : style := Style Title None None.
Definition heading_style : style := Style Heading2 (Some TA_CENTER) None.
Definition body_style : style := Style BodyText (Some TA_JUSTIFY) (Some 14%Z).

(** The body of [for section in sections:]; the local it updates is
    [story]. *)
Definition section_body (section : str) (story : list flowable)
  : M (list flowable) :=
  if contains COLON section then
    parts <- lift (unpack2 (split COLON (Some 1) section)) ;;
    let (heading, content) := parts in
    heading_paragraph <- lift (paragraph (strip heading ++ COLON) heading_style) ;;
    let story := story ++ [heading_paragraph] in
    let story := story ++ [Spacer 1 12] in
    body_paragraph <- lift (paragraph (strip content) body_style) ;;
    let story := story ++ [body_paragraph] in
    let story := story ++ [Spacer 1 12] in
    image_buffer <- generate_image_from_text (strip content) ;;
    let img := Image image_buffer (4 * inch) (3 * inch) (lit "CENTER") in
    let story := story ++ [img] in
    let story := story ++ [Spacer 1 24] in
    ret story
  else ret story.

Definition create_pdf (lesson_plan : str) : M pdf_buffer :=
  let story := [] in
  let story := story ++ [Paragraph (lit "Lesson Plan") title_style] in
  let story := story ++ [Spacer 1 24] in
  let sections := split (lit "\n\n") None lesson_plan in
  story <- for_each sections section_body story ;;
  ret (DocBuild story).

(** [upload_and_generate_plan], the handler of POST /generate-lesson-plan/.
    The upload is its file name and its content. *)
Record streaming_response := StreamingResponse {
  content : pdf_buffer;
  media_type : str;
  response_headers : list (str * str)
}.

Definition upload_and_generate_plan (filename : str) (file_content : bytes)
  : M streaming_response :=
  if negb (endswith (lit ".pdf") filename) then
    raise (HTTPException 400 (lit "Only PDF files are allowed."))
  else
    let pdf_bytes := file_content in
    extracted_text <- extract_text_from_pdf pdf_bytes ;;
    lesson_plan <- generate_lesson_plan extracted_text ;;
    pdf_buffer <- create_pdf lesson_plan ;;
    ret (StreamingResponse pdf_buffer (lit "application/pdf")
           [(lit "Content-Disposition", lit "attachment; filename=lesson_plan.pdf")]).

End Program.
End App.

(* ================================================================== *)
(** * [main.py]: the Streamlit script *)
(* ================================================================== *)

Module Main.
Section Program.
Context {ext : Externals}.

(** [extract_text_from_pdf] *)
Definition extract_text_from_pdf (pdf_file : bytes) : M str :=
  try_except
    (emit (FitzOpen pdf_file) ;;;
     doc <- lift (fitz_open pdf_file) ;;
     texts <- lift (comprehension get_text doc) ;;
     ret (join [] texts))
    (fun e =>
       emit (StError (lit "PDF extraction failed: " ++ str_exn e)) ;;;
       ret []).

Definition prompt_head : str :=
  List.concat
    [lit "\n";
     lit "    Based on the following textbook chapter content:\n";
     lit "\n"].

Definition prompt_tail : str :=
  List.concat
    [lit "\n";
     lit "\n";
     lit "Please generate a comprehensive lesson plan for teachers, structured into three distinct sections:\n";
     lit "\n";
     lit "Introduction: Chapter name and Create an engaging introduction that captures students' attention and effectively introduces the key concepts of the chapter.\n";
     lit "Output Format:\n";
     lit "Paragraph: Start with a brief introduction to the key concept(s) of the chapter.\n";
     lit "Key Question: Pose an open-ended question to engage students and spark curiosity.\n";
     lit "Transition: Summarize the introduction and link it to the main body of the lesson.\n";
     lit "\n";
     lit "Main Body: Present the core lesson material in a clear and organized manner. Focus on detailed explanations and relevant real-world examples that facilitate student understanding of the chapter's content. Ensure the material is logically sequenced.\n";
     lit "Output Format:\n";
     lit "Paragraph: Provide a detailed explanation of the key concept(s).\n";
     lit "Bullet Points: List the critical components, definitions, or facts.\n";
     lit "Detailed Explanation: Describe the process or concept step-by-step.\n";
     lit "Transition: Conclude the main body and prepare the students for the class activity.\n";
     lit "\n";
     lit "Class Activity: Design an interactive class activity that reinforces the lesson objectives and promotes active participation. The activity should seamlessly connect back to both the introduction and the main body of the lesson.\n";
     lit "Output Format:\n";
     lit "\n";
     lit "Activity Name: Provide a creative name for the activity.\n";
     lit "Bullet Points: Describe the steps or materials required for the activity.\n";
     lit "Objective: Explain how the activity supports learning and connects to the chapter" ++ [8217%N] ++ lit "s content.\n";
     lit "Debrief: Summarize the activity and link it back to the key concepts learned in the lesson.\n";
     lit "    "].

(** [generate_lesson_plan] *)
Definition prompt (extracted_text : str) : str :=
  prompt_head ++ extracted_text ++ prompt_tail.

Definition chat_request (extracted_text : str) : request :=
  Request (base_url ++ lit "/chat/completions") auth_headers
    (JObject
       [(lit "model", JString (lit "meta-llama/Meta-Llama-3-70B-Instruct"));
        (lit "messages",
         JArray [JObject [(lit "role", JString (lit "user"));
                          (lit "content", JString (prompt extracted_text))]]);
        (lit "max_tokens", JInt 10000)]).

Definition generate_lesson_plan (extracted_text : str) : M str :=
  response <- post (chat_request extracted_text) ;;
  raise_for_status response ;;;
  payload <- lift (body_json response) ;;
  choices <- lift (getitem_key payload (lit "choices")) ;;
  choice <- lift (getitem_0 choices) ;;
  message <- lift (getitem_key choice (lit "message")) ;;
  content <- lift (getitem_key message (lit "content")) ;;
  text <- lift (as_str content) ;;
  ret (strip text).

(** [generate_image_from_text] *)
Definition image_url : str :=
  lit "https://api.deepinfra.com/v1/inference/black-forest-labs/FLUX-1-schnell".

Definition image_request (text : str) : request :=
  Request image_url auth_headers (JObject [(lit "prompt", JString text)]).

Definition generate_image_from_text (text : str) : M bytes :=
  response <- post (image_request text) ;;
  raise_for_status response ;;;
  payload <- lift (body_json response) ;;
  images <- lift (getitem_key payload (lit "images")) ;;
  first <- lift (getitem_0 images) ;;
  data_uri <- lift (as_str first) ;;
  image_data_base64 <-
    lift (match nth_error (split COMMA None data_uri) 1 with
          | Some piece => inr piece
          | None => inl IndexError
          end) ;;
  image_data <- lift (b64decode image_data_base64) ;;
  buffer <- lift (pil_save_png image_data) ;;
  ret buffer.

(** [create_pdf] *)
Definition title_style : style := Style Title None None.
Definition heading_style : style := Style Heading2 (Some TA_CENTER) None.
Definition bullet_style : style := Style Bullet None None.
Definition body_style : style := Style BodyText (Some TA_JUSTIFY) (Some 14%Z).

(** The flowable for the text of a section: the [if "\n" in
    content.strip()] of the loop. The paragraphs of the bullet items are
    built one after the other, in the order of the lines. *)
Definition body_flowable (content : str) : result flowable :=
  if contains NL (strip content) then
    let bullet_points := split NL None (strip content) in
    match comprehension
            (fun point =>
               match paragraph (strip point) bullet_style with
               | inl e => inl e
               | inr item_paragraph => inr (ListItem item_paragraph)
               end)
            bullet_points with
    | inl e => inl e
    | inr bullet_items => inr (ListFlowable bullet_items (lit "bullet"))
    end
  else paragraph (strip content) body_style.

(** The body of [for section in sections:]; the local it updates is
    [story]. *)
Definition section_body (section : str) (story : list flowable)
  : M (list flowable) :=
  if contains COLON section then
    parts <- lift (unpack2 (split COLON (Some 1) section)) ;;
    let (heading, content) := parts in
    heading_paragraph <-
      lift (paragraph (lit "<b>" ++ strip heading ++ lit ":</b>") heading_style) ;;
    let story := story ++ [heading_paragraph] in
    let story := story ++ [Spacer 1 12] in
    body <- lift (body_flowable content) ;;
    let story := story ++ [body] in
    let story := story ++ [Spacer 1 12] in
    image_buffer <- generate_image_from_text (strip content) ;;
    let img := Image image_buffer (8 * inch) (3 * inch) (lit "CENTER") in
    let story := story ++ [img] in
    let story := story ++ [Spacer 1 24] in
    ret story
  else ret story.

Definition create_pdf (lesson_plan : str) : M pdf_buffer :=
  let story := [] in
  let story := story ++ [Paragraph (lit "Lesson Plan") title_style] in
  let story := story ++ [Spacer 1 24] in
  let sections := split (lit "\n\n") None lesson_plan in
  story <- for_each sections section_body story ;;
  ret (DocBuild story).

(** One run of the script below the page header. [uploaded_file] is what
    [st.file_uploader] returned, [clicked] what [st.button] returns. *)
Definition script (uploaded_file : option bytes) (clicked : bool) : M unit :=
  match uploaded_file with
  | None => ret tt
  | Some file_bytes =>
      try_except
        (extracted_text <- extract_text_from_pdf file_bytes ;;
         if truthy extracted_text then
           lesson_plan <- generate_lesson_plan extracted_text ;;
           emit (StTextArea (lit "Generated Lesson Plan") lesson_plan 400) ;;;
           emit (StButton (lit "Download Lesson Plan as PDF")) ;;;
           if clicked then
             pdf_buffer <- create_pdf lesson_plan ;;
             emit (StDownloadButton (lit "Download PDF") pdf_buffer
                     (lit "lesson_plan.pdf") (lit "application/pdf"))
           else ret tt
         else ret tt)
        (fun e => emit (StError (lit "An error occurred: " ++ str_exn e)))
  end.

End Program.
End Main.

(* ================================================================== *)
(** * Notions the statements use *)
(* ================================================================== *)

(** The part of [s] before the first [c], and the part after it. *)
Fixpoint before (c : char) (s : str) : str :=
  match s with
  | [] => []
  | x :: s' => if (c =? x)%N then [] else x :: before c s'
  end.

Fixpoint after (c : char) (s : str) : str :=
  match s with
  | [] => []
  | x :: s' => if (c =? x)%N then s' else after c s'
  end.

(** The heading and the body text of a block that has a colon. *)
Definition heading_of (block : str) : str := strip (before 58%N block).
Definition body_of (block : str) : str := strip (after 58%N block).

(** The candidate blocks of a lesson plan, and those with a colon. *)
Definition blocks (lesson_plan : str) : list str :=
  split (lit "\n\n") None lesson_plan.

Definition sections (lesson_plan : str) : list str :=
  filter (contains COLON) (blocks lesson_plan).

(** What a story shows: the texts set in the heading style, the number of
    images, whether a bullet list occurs. *)
Fixpoint heading_texts (story : list flowable) : list str :=
  match story with
  | [] => []
  | Paragraph text (Style Heading2 _ _) :: rest => text :: heading_texts rest
  | _ :: rest => heading_texts rest
  end.

Fixpoint image_count (story : list flowable) : nat :=
  match story with
  | [] => 0
  | Image _ _ _ _ :: rest => S (image_count rest)
  | _ :: rest => image_count rest
  end.

Definition is_list_flowable (f : flowable) : bool :=
  match f with
  | ListFlowable _ _ => true
  | _ => false
  end.

(** The flowables of the sections, each laid out by [render] with its image. *)
Definition render_all (render : str -> bytes -> list flowable)
  (secs : list str) (images : list bytes) : list flowable :=
  List.concat (map (fun p => render (fst p) (snd p)) (combine secs images)).

(** The story before the loop. *)
Definition title_block : list flowable :=
  [Paragraph (lit "Lesson Plan") (Style Title None None); Spacer 1 24].

(** What one section contributes to the story, in each program. *)
Definition app_render (block : str) (image : bytes) : list flowable :=
  [Paragraph (heading_of block ++ COLON) App.heading_style;
   Spacer 1 12;
   Paragraph (body_of block) App.body_style;
   Spacer 1 12;
   Image image (4 * inch) (3 * inch) (lit "CENTER");
   Spacer 1 24].

(** The flowable [main.py] makes of a trimmed body text. *)
Definition bullets_or_paragraph (trimmed : str) : flowable :=
  if contains NL trimmed then
    ListFlowable
      (map (fun line => ListItem (Paragraph (strip line) Main.bullet_style))
           (split NL None trimmed))
      (lit "bullet")
  else Paragraph trimmed Main.body_style.

Definition main_render (block : str) (image : bytes) : list flowable :=
  [Paragraph (lit "<b>" ++ heading_of block ++ lit ":</b>") Main.heading_style;
   Spacer 1 12;
   bullets_or_paragraph (body_of block);
   Spacer 1 12;
   Image image (8 * inch) (3 * inch) (lit "CENTER");
   Spacer 1 24].

Definition remote_call (e : event) : bool :=
  match e with
  | RequestsPost _ => true
  | _ => false
  end.

(** The texts each program makes paragraphs of for one block, in the
    order in which it builds them. *)
Definition body_texts (trimmed : str) : list str :=
  if contains NL trimmed then map strip (split NL None trimmed) else [trimmed].

Definition app_texts (block : str) : list str :=
  [heading_of block ++ COLON; body_of block].

Definition main_texts (block : str) : list str :=
  (lit "<b>" ++ heading_of block ++ lit ":</b>") :: body_texts (body_of block).

Section Notions.
Context {ext : Externals}.

(** The call one section makes. *)
Definition image_call (block : str) : event :=
  RequestsPost (App.image_request (body_of block)).

(** The exception of the first text, in order, that ReportLab does not
    accept as a paragraph. *)
Fixpoint first_error (texts : list str) : option exn :=
  match texts with
  | [] => None
  | text :: rest =>
      match paragraph_error text with
      | Some e => Some e
      | None => first_error rest
      end
  end.

(** The service answers the image calls of the sections one after the
    other, starting from log [w], with [images]. *)
Fixpoint images_served (secs : list str) (w : log) (images : list bytes) : Prop :=
  match secs, images with
  | [], [] => True
  | b :: rest, image :: others =>
      App.generate_image_from_text (body_of b) w = (inr image, w ++ [image_call b]) /\
      images_served rest (w ++ [image_call b]) others
  | _, _ => False
  end.


(** Extraction: what PyMuPDF gives for a stream. *)
Definition parses (stream : bytes) (texts : list str) : Prop :=
  exists doc, fitz_open stream = inr doc /\
              Forall2 (fun p t => get_text p = inr t) doc texts.

Definition parse_fails (stream : bytes) (e : exn) : Prop :=
  fitz_open stream = inl e \/
  exists doc, fitz_open stream = inr doc /\ comprehension get_text doc = inl e.

(** A response the generator can use: a status outside 4xx/5xx, and a
    JSON body with a string holding a comma first in its "images", the
    piece after that comma decoding to data Pillow can read. *)
Definition usable_image_response (r : response) (image : bytes) : Prop :=
  ((400 <=? status r) && (status r <? 600))%Z = false /\
  exists payload images first data_uri piece data,
    body_json r = inr payload /\
    getitem_key payload (lit "images") = inr images /\
    getitem_0 images = inr first /\
    as_str first = inr data_uri /\
    nth_error (split COMMA None data_uri) 1 = Some piece /\
    b64decode piece = inr data /\
    pil_save_png data = inr image.

(** No answer to the request that the image generator can use. *)
Definition unanswered (w : log) (req : request) : Prop :=
  forall r image, requests_post w req = inr r -> ~ usable_image_response r image.

(** A response the lesson-plan generator can use: a status outside
    4xx/5xx, and a JSON body whose "choices" start with an object that has
    a "message" with a string as "content". *)
Definition completion_of (r : response) (content : str) : Prop :=
  ((400 <=? status r) && (status r <? 600))%Z = false /\
  exists payload choices choice message answer,
    body_json r = inr payload /\
    getitem_key payload (lit "choices") = inr choices /\
    getitem_0 choices = inr choice /\
    getitem_key choice (lit "message") = inr message /\
    getitem_key message (lit "content") = inr answer /\
    as_str answer = inr content.

(** The two files, to state a fact about the function of the same name
    in each. *)
Inductive program := AppPy | MainPy.

Definition generate_lesson_plan_of (p : program) : str -> M str :=
  match p with
  | AppPy => App.generate_lesson_plan
  | MainPy => Main.generate_lesson_plan
  end.

Definition chat_request_of (p : program) : str -> request :=
  match p with
  | AppPy => App.chat_request
  | MainPy => Main.chat_request
  end.

End Notions.


(* ================================================================== *)
(** * Sample environments *)
(* ================================================================== *)

(** Small stand-ins for the libraries and the remote services, to run the
    programs on concrete inputs.  A document is a list of bytes, one page
    per byte: a zero byte is a page without text, any other byte a page
    whose text is that one character; the empty stream does not open. *)
Module Sample.

Definition page_text (b : byte) : str :=
  match Byte.to_N b with
  | 0%N => []
  | n => [n]
  end.

Definition open_stream (stream : bytes) : result (list str) :=
  match stream with
  | [] => inl (LibraryError (lit "cannot open empty document"))
  | _ => inr (map page_text stream)
  end.

Definition decode (s : str) : result bytes :=
  inr (map (fun c => match Byte.of_N (c mod 256) with
                     | Some b => b
                     | None => x00
                     end) s).

Definition save_png (data : bytes) : result bytes :=
  match data with
  | [] => inl (LibraryError (lit "cannot identify image file"))
  | _ => inr data
  end.

Definition message (e : exn) : str :=
  match e with
  | HTTPException _ detail => detail
  | LibraryError m => m
  | KeyError k => k
  | _ => lit "error"
  end.

(** A markup reader that knows one tag: a text is refused when it has a
    "<" that does not start "<b>" or "</b>", or when these are not
    balanced. *)
Fixpoint unbalanced (depth : nat) (s : str) : bool :=
  match s with
  | [] => negb (Nat.eqb depth 0)
  | c :: rest =>
      if (c =? 60)%N then
        if startswith (lit "b>") rest then unbalanced (S depth) rest
        else if startswith (lit "/b>") rest then
          match depth with
          | O => true
          | S d => unbalanced d rest
          end
        else true
      else unbalanced depth rest
  end.

Definition markup_error (text : str) : option exn :=
  if unbalanced 0 text then Some ValueError else None.

Definition completion : json :=
  JObject
    [(lit "choices",
      JArray
        [JObject
           [(lit "message",
             JObject
               [(lit "role", JString (lit "assistant"));
                (lit "content",
                 JString (lit "  Intro: Hello\n\nBody: World\nWide\n"))])]])].

(** The image service answers with a data URI made from the prompt. *)
Definition picture (req : request) : json :=
  match json_payload req with
  | JObject [(_, JString text)] =>
      JObject [(lit "images", JArray [JString (lit "data:image/png;base64," ++ text)])]
  | _ => JObject []
  end.

Definition is_image_call (req : request) : bool :=
  str_eqb (url req)
    (lit "https://api.deepinfra.com/v1/inference/black-forest-labs/FLUX-1-schnell").

Definition answer (w : log) (req : request) : result response :=
  if is_image_call req
  then inr (Response 200 (inr (picture req)))
  else inr (Response 200 (inr completion)).

(** Both services up. *)
Definition healthy : Externals := {|
  page := str;
  fitz_open := open_stream;
  get_text := fun p => inr p;
  requests_post := answer;
  b64decode := decode;
  pil_save_png := save_png;
  str_exn := message;
  environ_key := None;
  paragraph_error := markup_error
|}.

(** The image service answers the first request and refuses every later
    one with status 500. *)
Definition answer_once (w : log) (req : request) : result response :=
  if is_image_call req && existsb remote_call w
  then inr (Response 500 (inl ValueError))
  else answer w req.

Definition flaky : Externals := {|
  page := str;
  fitz_open := open_stream;
  get_text := fun p => inr p;
  requests_post := answer_once;
  b64decode := decode;
  pil_save_png := save_png;
  str_exn := message;
  environ_key := None;
  paragraph_error := markup_error
|}.

Definition sample_plan : str := lit "Intro: Hello\n\nBody: World\nWide".

End Sample.

Definition remark_plan : str :=
  lit "Intro: Hello\n\njust a remark\n\nBody: World\nWide".

Definition three_sections : str := lit "A: one\n\nB: two\n\nC: three".

(** More stand-ins: services that answer every request with status 200
    and an empty JSON object, and services that answer with status 503. *)
Module Outage.

Definition empty_answer (w : log) (req : request) : result response :=
  inr (Response 200 (inr (JObject []))).

Definition unavailable (w : log) (req : request) : result response :=
  inr (Response 503 (inl ValueError)).

Definition silent : Externals := {|
  page := str;
  fitz_open := Sample.open_stream;
  get_text := fun p => inr p;
  requests_post := empty_answer;
  b64decode := Sample.decode;
  pil_save_png := Sample.save_png;
  str_exn := Sample.message;
  environ_key := Some (lit "secret");
  paragraph_error := Sample.markup_error
|}.

Definition down : Externals := {|
  page := str;
  fitz_open := Sample.open_stream;
  get_text := fun p => inr p;
  requests_post := unavailable;
  b64decode := Sample.decode;
  pil_save_png := Sample.save_png;
  str_exn := Sample.message;
  environ_key := Some (lit "secret");
  paragraph_error := Sample.markup_error
|}.

End Outage.

(* ================================================================== *)
(** * Proof steps for the monad *)
(* ================================================================== *)

Ltac run_monad :=
  unfold bind, lift, ret, raise, emit, post, raise_for_status, try_except;
  cbn beta iota zeta.

Ltac split_result :=
  repeat match goal with
    | |- context [match ?r with inl _ => _ | inr _ => _ end] =>
        destruct r; cbn beta iota zeta
    | |- context [if ?b then _ else _] => destruct b; cbn beta iota zeta
    | |- context [match ?o with Some _ => _ | None => _ end] =>
        destruct o; cbn beta iota zeta
    end.

(* ================================================================== *)
(** * The operations on concrete inputs *)
(* ================================================================== *)

Example split_blank_lines :
  split (lit "\n\n") None (lit "a: b\n\n\nc\n\n") = [lit "a: b"; lit "\nc"; []].
Proof. reflexivity. Qed.

Example split_first_colon :
  split COLON (Some 1) (lit "Time: 10:30") = [lit "Time"; lit " 10:30"].
Proof. reflexivity. Qed.

Example strip_both_ends :
  strip (lit " \n Hello world \n") = lit "Hello world".
Proof. reflexivity. Qed.

Example endswith_pdf :
  endswith (lit ".pdf") (lit "notes.txt") = false /\
  endswith (lit ".pdf") (lit "chapter.pdf") = true.
Proof. split; reflexivity. Qed.

Example sample_app_pdf :
  fst (@App.create_pdf Sample.healthy Sample.sample_plan []) =
  inr (DocBuild
         [Paragraph (lit "Lesson Plan") (Style Title None None);
          Spacer 1 24;
          Paragraph (lit "Intro:") (Style Heading2 (Some 1%Z) None);
          Spacer 1 12;
          Paragraph (lit "Hello") (Style BodyText (Some 4%Z) (Some 14%Z));
          Spacer 1 12;
          Image [x48; x65; x6c; x6c; x6f] 288 216 (lit "CENTER");
          Spacer 1 24;
          Paragraph (lit "Body:") (Style Heading2 (Some 1%Z) None);
          Spacer 1 12;
          Paragraph (lit "World\nWide") (Style BodyText (Some 4%Z) (Some 14%Z));
          Spacer 1 12;
          Image [x57; x6f; x72; x6c; x64; x0a; x57; x69; x64; x65] 288 216 (lit "CENTER");
          Spacer 1 24]).
Proof. vm_compute. reflexivity. Qed.

Example sample_pipeline_log :
  snd (@App.upload_and_generate_plan Sample.healthy (lit "chapter.pdf") [x41; x42] []) =
  [FitzOpen [x41; x42];
   RequestsPost (@App.chat_request Sample.healthy (lit "AB"));
   RequestsPost (@App.image_request Sample.healthy (lit "Hello"));
   RequestsPost (@App.image_request Sample.healthy (lit "World\nWide"))].
Proof. vm_compute. reflexivity. Qed.

(* ================================================================== *)
(** * Facts about the string operations *)
(* ================================================================== *)

Section StringFacts.

Lemma startswith_char (c : char) (s : str) :
  startswith [c] s = match s with [] => false | x :: _ => (c =? x)%N end.
Proof.
  destruct s as [|x s]; simpl; [reflexivity|].
  now rewrite andb_true_r.
Qed.

Lemma contains_char (c : char) (s : str) :
  contains [c] s = existsb (N.eqb c) s.
Proof.
  induction s as [|x s IH]; [reflexivity|].
  cbn [contains existsb]. now rewrite startswith_char, IH.
Qed.

Lemma contains_char_In (c : char) (s : str) :
  contains [c] s = true <-> In c s.
Proof.
  rewrite contains_char, existsb_exists. split.
  - intros (x & Hx & E). apply N.eqb_eq in E. now subst.
  - intros Hc. exists c. split; [assumption | apply N.eqb_refl].
Qed.

(** With no split left, the rest of the string is one piece. *)
Lemma split_from_exhausted (sep s : str) :
  split_from sep (Some 0%nat) 0 s = [s].
Proof.
  induction s as [|x s IH]; [reflexivity|].
  cbn [split_from may_split andb]. now rewrite IH.
Qed.

Lemma before_after (c : char) (s : str) :
  In c s -> s = before c s ++ c :: after c s.
Proof.
  induction s as [|x s IH]; simpl; [tauto|].
  intros Hin. destruct (N.eqb_spec c x) as [->|Hne]; [reflexivity|].
  simpl. f_equal. apply IH. destruct Hin as [E|Hin]; [congruence | assumption].
Qed.

Lemma before_free (c : char) (s : str) : ~ In c (before c s).
Proof.
  induction s as [|x s IH]; simpl; [tauto|].
  destruct (N.eqb_spec c x) as [->|Hne]; simpl; [tauto|].
  intros [E|Hin]; [congruence | contradiction].
Qed.

(** [s.split(c, 1)] on a string that has a [c]: the two parts around the
    first occurrence. *)
Lemma split_first (c : char) (s : str) :
  contains [c] s = true ->
  split [c] (Some 1%nat) s = [before c s; after c s].
Proof.
  unfold split. induction s as [|x s IH]; [discriminate|].
  intros Hc. cbn [split_from may_split andb]. rewrite startswith_char.
  cbn [before after]. destruct (N.eqb_spec c x) as [->|Hne].
  - cbn [one_less pred List.length]. now rewrite split_from_exhausted.
  - rewrite IH; [reflexivity|].
    apply contains_char_In in Hc. apply contains_char_In.
    destruct Hc as [E|Hc]; [congruence | assumption].
Qed.

(** Splitting on one character gives one piece more than there are
    occurrences of it. *)
Lemma split_char_length (c : char) (s : str) :
  List.length (split [c] None s) = S (count_occ N.eq_dec s c).
Proof.
  unfold split. induction s as [|x s IH]; [reflexivity|].
  cbn [split_from may_split andb]. rewrite startswith_char.
  cbn [count_occ one_less pred List.length].
  destruct (N.eqb_spec c x) as [->|Hne].
  - destruct (N.eq_dec x x) as [_|F]; [|congruence].
    cbn [List.length]. now rewrite IH.
  - destruct (N.eq_dec x c) as [E|_]; [congruence|].
    destruct (split_from [c] None 0 s) as [|p r] eqn:E; [discriminate|].
    exact IH.
Qed.

Lemma lstrip_spec (s : str) :
  exists l, s = l ++ lstrip s /\ forallb isspace l = true /\
            match lstrip s with [] => True | x :: _ => isspace x = false end.
Proof.
  induction s as [|x s (l & E & Hl & Hh)].
  - exists []. now repeat split.
  - cbn [lstrip]. destruct (isspace x) eqn:Hx.
    + exists (x :: l). cbn [forallb app]. rewrite Hx, Hl. repeat split; [|exact Hh].
      now f_equal.
    + exists []. now repeat split.
Qed.

Lemma rstrip_spec (s : str) :
  exists r, s = rstrip s ++ r /\ forallb isspace r = true /\
            match rev (rstrip s) with [] => True | x :: _ => isspace x = false end.
Proof.
  induction s as [|x s (r & E & Hr & Hl)].
  - exists []. now repeat split.
  - cbn [rstrip]. destruct (rstrip s) as [|y t] eqn:Et.
    + destruct (isspace x) eqn:Hx.
      * exists (x :: r). cbn [forallb app]. rewrite Hx, Hr.
        repeat split. now rewrite E at 1.
      * exists r. repeat split; [now rewrite E at 1 | assumption | exact Hx].
    + exists r. repeat split; [now rewrite E at 1 | assumption |].
      change (x :: y :: t) with ([x] ++ (y :: t)). rewrite rev_app_distr.
      destruct (rev (y :: t)) as [|z u] eqn:Er; [|exact Hl].
      apply (f_equal (@List.length _)) in Er. rewrite length_rev in Er. discriminate.
Qed.

Lemma rstrip_head (s : str) :
  match s with
  | [] => True
  | x :: _ => isspace x = false -> exists t, rstrip s = x :: t
  end.
Proof.
  destruct s as [|x s]; [exact I|]. intros Hx. cbn [rstrip].
  destruct (rstrip s) as [|y t]; [rewrite Hx|]; eauto.
Qed.

(** [strip] removes whitespace, and only whitespace, from both ends. *)
Lemma strip_spec (s : str) :
  exists l r,
    s = l ++ strip s ++ r /\
    forallb isspace l = true /\ forallb isspace r = true /\
    match strip s with [] => True | x :: _ => isspace x = false end /\
    match rev (strip s) with [] => True | x :: _ => isspace x = false end.
Proof.
  unfold strip.
  destruct (lstrip_spec s) as (l & El & Hl & Hh).
  destruct (rstrip_spec (lstrip s)) as (r & Er & Hr & Hlast).
  exists l, r. repeat split; try assumption.
  - rewrite <- Er. exact El.
  - pose proof (rstrip_head (lstrip s)) as Hrh.
    destruct (lstrip s) as [|x t]; [exact I|].
    destruct (Hrh Hh) as (u & ->). exact Hh.
Qed.

Lemma join_empty (parts : list str) : join [] parts = List.concat parts.
Proof.
  induction parts as [|p ps IH]; [reflexivity|].
  cbn [join List.concat]. destruct ps as [|q qs].
  - now rewrite app_nil_r.
  - now rewrite IH.
Qed.

End StringFacts.

(* ================================================================== *)
(** * Facts about loops and about the assembly loop *)
(* ================================================================== *)

Section LoopFacts.
Context {A S : Type}.
Variable body : A -> S -> M S.

Lemma for_each_app (xs ys : list A) (s : S) (w : log) :
  for_each (xs ++ ys) body s w =
  match for_each xs body s w with
  | (inr s', w') => for_each ys body s' w'
  | (inl e, w') => (inl e, w')
  end.
Proof.
  revert s w. induction xs as [|x xs IH]; intros s w; [reflexivity|].
  cbn [app for_each]. unfold bind.
  destruct (body x s w) as [[e|s'] w']; [reflexivity | apply IH].
Qed.

(** Iterations that leave the state and the log alone can be dropped. *)
Lemma for_each_filter (keep : A -> bool) :
  (forall x s w, keep x = false -> body x s w = (inr s, w)) ->
  forall xs s w, for_each xs body s w = for_each (filter keep xs) body s w.
Proof.
  intros Hskip xs. induction xs as [|x xs IH]; intros s w; [reflexivity|].
  cbn [filter]. destruct (keep x) eqn:Hk; cbn [for_each]; unfold bind.
  - destruct (body x s w) as [[e|s'] w']; [reflexivity | apply IH].
  - rewrite (Hskip x s w Hk). apply IH.
Qed.

End LoopFacts.

Lemma heading_texts_app (a b : list flowable) :
  heading_texts (a ++ b) = heading_texts a ++ heading_texts b.
Proof.
  induction a as [|f a IH]; [reflexivity|].
  destruct f as [t [[] al le]| | | |]; cbn [app heading_texts]; now rewrite IH.
Qed.

Lemma image_count_app (a b : list flowable) :
  image_count (a ++ b) = (image_count a + image_count b)%nat.
Proof.
  induction a as [|f a IH]; [reflexivity|].
  destruct f; cbn [app image_count]; now rewrite IH.
Qed.

Section Assembly.
Context {ext : Externals}.

(** A loop body of the shape both programs have: a block with a colon
    first makes paragraphs of [texts block], one after the other, then
    asks for an image of its body text and appends [render block image];
    any other block is passed over. *)
Variable body : str -> list flowable -> M (list flowable).
Variable render : str -> bytes -> list flowable.
Variable texts : str -> list str.

Hypothesis body_colon :
  forall block story w, contains COLON block = true ->
    body block story w =
    match first_error (texts block) with
    | Some e => (inl e, w)
    | None =>
        match App.generate_image_from_text (body_of block) w with
        | (inr image, w') => (inr (story ++ render block image), w')
        | (inl e, w') => (inl e, w')
        end
    end.

Hypothesis body_plain :
  forall block story w, contains COLON block = false ->
    body block story w = (inr story, w).

Hypothesis gen_logs :
  forall text w,
    snd (App.generate_image_from_text text w) =
    w ++ [RequestsPost (App.image_request text)].

Lemma images_served_length (secs : list str) :
  forall w images, images_served secs w images ->
                   List.length images = List.length secs.
Proof.
  induction secs as [|b secs IH]; intros w [|image images] H;
    try reflexivity; try contradiction.
  destruct H as [_ H]. cbn. f_equal. exact (IH _ _ H).
Qed.


(** The loop returns when every text is accepted and every call served. *)
Lemma assemble_returns (secs : list str) :
  Forall (fun b => contains COLON b = true) secs ->
  Forall (fun b => first_error (texts b) = None) secs ->
  forall images story w,
    images_served secs w images ->
    for_each secs body story w =
    (inr (story ++ render_all render secs images), w ++ map image_call secs).
Proof.
  induction secs as [|b secs IH]; intros Hcolon Hok images story w Hserved.
  - destruct images; [|contradiction]. cbn. now rewrite !app_nil_r.
  - destruct images as [|image images]; [contradiction|].
    destruct Hserved as [Himage Hserved].
    inversion Hcolon as [|? ? Hb Hrest]; subst.
    inversion Hok as [|? ? Hacc Hoks]; subst.
    cbn [for_each]. unfold bind.
    rewrite (body_colon _ _ _ Hb), Hacc, Himage.
    rewrite (IH Hrest Hoks images _ _ Hserved).
    unfold render_all. cbn [combine map List.concat fst snd].
    now rewrite <- !app_assoc.
Qed.

(** A loop that has returned has had every text accepted and every call
    served. *)
Lemma assemble_returned (secs : list str) :
  Forall (fun b => contains COLON b = true) secs ->
  forall story w story' w',
    for_each secs body story w = (inr story', w') ->
    Forall (fun b => first_error (texts b) = None) secs /\
    exists images,
      images_served secs w images /\
      story' = story ++ render_all render secs images /\
      w' = w ++ map image_call secs.
Proof.
  induction secs as [|b secs IH]; intros Hcolon story w story' w' Hrun.
  - cbn in Hrun. injection Hrun as <- <-. split; [constructor|].
    exists []. cbn. now rewrite !app_nil_r.
  - inversion Hcolon as [|? ? Hb Hrest]; subst.
    cbn [for_each] in Hrun. unfold bind in Hrun.
    rewrite (body_colon _ _ _ Hb) in Hrun.
    destruct (first_error (texts b)) as [e|] eqn:Hacc; [discriminate|].
    pose proof (gen_logs (body_of b) w) as Hlog.
    destruct (App.generate_image_from_text (body_of b) w) as [[e|image] w1] eqn:Hgen;
      [discriminate|].
    cbn [snd] in Hlog. subst w1.
    destruct (IH Hrest _ _ _ _ Hrun) as (Hoks & images & Hserved & -> & ->).
    split; [now constructor|].
    exists (image :: images). split; [split; assumption|].
    unfold render_all. cbn [combine map List.concat fst snd].
    now rewrite <- !app_assoc.
Qed.

(** In any run the calls are those of the first sections, in order; a
    run that returns a story has made the calls of all of them. *)
Lemma assemble_calls (secs : list str) :
  Forall (fun b => contains COLON b = true) secs ->
  forall story w,
  exists k,
    (k <= List.length secs)%nat /\
    snd (for_each secs body story w) = w ++ map image_call (firstn k secs) /\
    (forall story', fst (for_each secs body story w) = inr story' ->
                    k = List.length secs).
Proof.
  induction secs as [|b secs IH]; intros Hcolon story w.
  - exists 0%nat. cbn. rewrite app_nil_r. repeat split; reflexivity || lia.
  - inversion Hcolon as [|? ? Hb Hrest]; subst.
    pose proof (gen_logs (body_of b) w) as Hlog.
    cbn [for_each]. unfold bind. rewrite (body_colon _ _ _ Hb).
    destruct (first_error (texts b)) as [e|].
    { exists 0%nat. cbn. rewrite app_nil_r. repeat split; [lia | discriminate]. }
    destruct (App.generate_image_from_text (body_of b) w) as [[e|image] w1];
      cbn in Hlog; subst w1.
    + exists 1%nat. cbn. repeat split; [lia | discriminate].
    + destruct (IH Hrest (story ++ render b image) (w ++ [image_call b]))
        as (k & Hk & Hrun & Hall).
      exists (S k). cbn [firstn map List.length].
      unfold image_call at 1 in Hrun. rewrite Hrun, <- app_assoc.
      repeat split; [lia|]. intros story' Hok. f_equal. now apply (Hall story').
Qed.

(** A failing image call ends the loop with that exception; the blocks
    after it leave no trace. *)
Lemma assemble_abort (pre post : list str) (b : str) story w story1 w1 e w2 :
  for_each pre body story w = (inr story1, w1) ->
  contains COLON b = true ->
  first_error (texts b) = None ->
  App.generate_image_from_text (body_of b) w1 = (inl e, w2) ->
  for_each (pre ++ b :: post) body story w = (inl e, w2).
Proof.
  intros Hpre Hb Hacc Hfail. rewrite for_each_app, Hpre.
  cbn [for_each]. unfold bind. now rewrite (body_colon _ _ _ Hb), Hacc, Hfail.
Qed.

(** So does a text that is not accepted, before the image call. *)
Lemma assemble_refused (pre post : list str) (b : str) story w story1 w1 e :
  for_each pre body story w = (inr story1, w1) ->
  contains COLON b = true ->
  first_error (texts b) = Some e ->
  for_each (pre ++ b :: post) body story w = (inl e, w1).
Proof.
  intros Hpre Hb Hacc. rewrite for_each_app, Hpre.
  cbn [for_each]. unfold bind. now rewrite (body_colon _ _ _ Hb), Hacc.
Qed.

Lemma assemble_plain (bs : list str) story w :
  forallb (fun b => negb (contains COLON b)) bs = true ->
  for_each bs body story w = (inr story, w).
Proof.
  intros Hnone. rewrite (for_each_filter body (contains COLON) body_plain).
  replace (filter (contains COLON) bs) with (@nil (list N)); [reflexivity|].
  induction bs as [|b bs IH]; [reflexivity|].
  cbn [forallb] in Hnone. apply andb_true_iff in Hnone as [Hb Hbs].
  cbn [filter]. apply negb_true_iff in Hb. rewrite Hb. now apply IH.
Qed.

(** Headings and images of the sections, given what one section shows. *)
Lemma render_all_shape (mark : str -> str) (per : nat) :
  (forall b image, heading_texts (render b image) = [mark b]) ->
  (forall b image, image_count (render b image) = 1%nat) ->
  (forall b image, List.length (render b image) = per) ->
  forall secs images, List.length images = List.length secs ->
    heading_texts (render_all render secs images) = map mark secs /\
    image_count (render_all render secs images) = List.length secs /\
    List.length (render_all render secs images) = (per * List.length secs)%nat.
Proof.
  intros Hh Hi Hl. unfold render_all.
  induction secs as [|b secs IH]; intros [|image images] Hlen; try discriminate.
  - cbn. repeat split. lia.
  - injection Hlen as Hlen. destruct (IH images Hlen) as (IHh & IHi & IHl).
    cbn [combine map List.concat fst snd].
    rewrite heading_texts_app, image_count_app, length_app, Hh, Hi, Hl, IHh, IHi, IHl.
    cbn [map List.length app]. repeat split. lia.
Qed.

End Assembly.

(* ================================================================== *)
(** * Facts about the two programs *)
(* ================================================================== *)

Section ProgramFacts.
Context {ext : Externals}.

(** The generator is the same function in both files. *)
Lemma image_generator_same (text : str) :
  App.generate_image_from_text text = Main.generate_image_from_text text.
Proof. reflexivity. Qed.

(** It makes one remote call, whatever the outcome. *)
Lemma image_generator_logs (text : str) (w : log) :
  snd (App.generate_image_from_text text w) =
  w ++ [RequestsPost (App.image_request text)].
Proof.
  unfold App.generate_image_from_text. run_monad.
  destruct (requests_post w (App.image_request text)) as [e|r]; [reflexivity|].
  split_result; reflexivity.
Qed.

(** A response with a 4xx or 5xx status makes it raise [HTTPError]. *)
Lemma image_generator_refused (text : str) (w : log) (r : response) :
  requests_post w (App.image_request text) = inr r ->
  ((400 <=? status r) && (status r <? 600))%Z = true ->
  App.generate_image_from_text text w =
  (inl (HTTPError (status r)), w ++ [RequestsPost (App.image_request text)]).
Proof.
  intros Hr Hs. unfold App.generate_image_from_text. run_monad.
  now rewrite Hr, Hs.
Qed.

Lemma image_generator_returns (text : str) (w w' : log) (image : bytes) :
  App.generate_image_from_text text w = (inr image, w') ->
  exists r, requests_post w (App.image_request text) = inr r /\
            usable_image_response r image.
Proof.
  unfold App.generate_image_from_text. run_monad.
  destruct (requests_post w (App.image_request text)) as [e|r] eqn:Hr;
    [discriminate|].
  destruct ((400 <=? status r) && (status r <? 600))%Z eqn:Hs; [discriminate|].
  cbn beta iota.
  destruct (body_json r) as [e|payload] eqn:Hj; [discriminate|].
  destruct (getitem_key payload (lit "images")) as [e|images] eqn:Hi;
    [discriminate|].
  destruct (getitem_0 images) as [e|first] eqn:Hf; [discriminate|].
  destruct (as_str first) as [e|data_uri] eqn:Hu; [discriminate|].
  destruct (nth_error (split COMMA None data_uri) 1) as [piece|] eqn:Hp;
    [|discriminate].
  destruct (b64decode piece) as [e|data] eqn:Hd; [discriminate|].
  destruct (pil_save_png data) as [e|png] eqn:Hpng; [discriminate|].
  intros [= <- <-]. exists r. split; [reflexivity|]. split; [exact Hs|].
  exists payload, images, first, data_uri, piece, data.
  repeat split; assumption.
Qed.

(** Any other answer makes it raise. *)
Lemma image_generator_raises (text : str) (w : log) :
  (forall r image, requests_post w (App.image_request text) = inr r ->
                   ~ usable_image_response r image) ->
  exists e,
    App.generate_image_from_text text w =
    (inl e, w ++ [RequestsPost (App.image_request text)]).
Proof.
  intros Hbad. pose proof (image_generator_logs text w) as Hlog.
  destruct (App.generate_image_from_text text w) as [[e|image] w'] eqn:Hrun.
  - exists e. cbn in Hlog. now subst w'.
  - destruct (image_generator_returns text w w' image Hrun) as (r & Hr & Hok).
    now destruct (Hbad r image Hr).
Qed.

Lemma app_section_colon (block : str) (story : list flowable) (w : log) :
  contains COLON block = true ->
  App.section_body block story w =
  match first_error (app_texts block) with
  | Some e => (inl e, w)
  | None =>
      match App.generate_image_from_text (body_of block) w with
      | (inr image, w') => (inr (story ++ app_render block image), w')
      | (inl e, w') => (inl e, w')
      end
  end.
Proof.
  intros Hb. unfold App.section_body. rewrite Hb.
  unfold bind at 1. unfold lift at 1.
  change COLON with [58%N] in Hb |- *.
  rewrite (split_first _ _ Hb).
  cbn [unpack2]. fold (body_of block). fold (heading_of block).
  unfold app_texts. cbn [first_error]. change COLON with [58%N].
  unfold bind at 1. unfold lift at 1. unfold paragraph at 1.
  destruct (paragraph_error (heading_of block ++ [58%N])) as [e|]; [reflexivity|].
  unfold bind at 1. unfold lift at 1. unfold paragraph at 1.
  destruct (paragraph_error (body_of block)) as [e|]; [reflexivity|].
  unfold bind at 1.
  destruct (App.generate_image_from_text (body_of block) w) as [[e|image] w'];
    [reflexivity|].
  unfold ret, app_render. now rewrite <- !app_assoc.
Qed.

Lemma app_section_plain (block : str) (story : list flowable) (w : log) :
  contains COLON block = false -> App.section_body block story w = (inr story, w).
Proof. intros Hb. unfold App.section_body. now rewrite Hb. Qed.

(** The paragraphs of the bullet items: the first line that is not
    accepted raises. *)
Lemma bullet_items_run (points : list str) :
  comprehension
    (fun point =>
       match paragraph (strip point) Main.bullet_style with
       | inl e => inl e
       | inr item_paragraph => inr (ListItem item_paragraph)
       end) points =
  match first_error (map strip points) with
  | Some e => inl e
  | None =>
      inr (map (fun point => ListItem (Paragraph (strip point) Main.bullet_style))
               points)
  end.
Proof.
  induction points as [|point points IH]; [reflexivity|].
  cbn [comprehension map first_error]. unfold paragraph at 1.
  destruct (paragraph_error (strip point)) as [e|]; [reflexivity|].
  rewrite IH. now destruct (first_error (map strip points)).
Qed.

(** The text flowable of a section in [main.py]. *)
Lemma body_flowable_run (content : str) :
  Main.body_flowable content =
  match first_error (body_texts (strip content)) with
  | Some e => inl e
  | None => inr (bullets_or_paragraph (strip content))
  end.
Proof.
  unfold Main.body_flowable, body_texts, bullets_or_paragraph.
  destruct (contains NL (strip content)).
  - rewrite bullet_items_run.
    now destruct (first_error (map strip (split NL None (strip content)))).
  - cbn [first_error]. unfold paragraph.
    now destruct (paragraph_error (strip content)).
Qed.

Lemma main_section_colon (block : str) (story : list flowable) (w : log) :
  contains COLON block = true ->
  Main.section_body block story w =
  match first_error (main_texts block) with
  | Some e => (inl e, w)
  | None =>
      match Main.generate_image_from_text (body_of block) w with
      | (inr image, w') => (inr (story ++ main_render block image), w')
      | (inl e, w') => (inl e, w')
      end
  end.
Proof.
  intros Hb. unfold Main.section_body. rewrite Hb.
  unfold bind at 1. unfold lift at 1.
  change COLON with [58%N] in Hb |- *.
  rewrite (split_first _ _ Hb).
  cbn [unpack2]. fold (heading_of block).
  unfold main_texts. cbn [first_error].
  unfold bind at 1. unfold lift at 1. unfold paragraph at 1.
  destruct (paragraph_error (lit "<b>" ++ heading_of block ++ lit ":</b>")) as [e|];
    [reflexivity|].
  unfold bind at 1. unfold lift at 1. rewrite body_flowable_run.
  fold (body_of block).
  destruct (first_error (body_texts (body_of block))) as [e|]; [reflexivity|].
  unfold bind at 1.
  destruct (Main.generate_image_from_text (body_of block) w) as [[e|image] w'];
    [reflexivity|].
  unfold ret, main_render. now rewrite <- !app_assoc.
Qed.

Lemma main_section_plain (block : str) (story : list flowable) (w : log) :
  contains COLON block = false -> Main.section_body block story w = (inr story, w).
Proof. intros Hb. unfold Main.section_body. now rewrite Hb. Qed.

Lemma app_create_pdf_loop (plan : str) (w : log) :
  App.create_pdf plan w =
  match for_each (blocks plan) App.section_body title_block w with
  | (inr story, w') => (inr (DocBuild story), w')
  | (inl e, w') => (inl e, w')
  end.
Proof. reflexivity. Qed.

Lemma main_create_pdf_loop (plan : str) (w : log) :
  Main.create_pdf plan w =
  match for_each (blocks plan) Main.section_body title_block w with
  | (inr story, w') => (inr (DocBuild story), w')
  | (inl e, w') => (inl e, w')
  end.
Proof. reflexivity. Qed.

Lemma comprehension_all {A B} (f : A -> result B) (xs : list A) (ys : list B) :
  Forall2 (fun x y => f x = inr y) xs ys <-> comprehension f xs = inr ys.
Proof.
  revert ys. induction xs as [|x xs IH]; intros ys; cbn [comprehension].
  - split; [intros H; now inversion H | intros [= <-]; constructor].
  - split.
    + intros H. inversion H as [|? y ? ys' Hx Hxs]; subst. rewrite Hx.
      apply IH in Hxs. now rewrite Hxs.
    + destruct (f x) as [e|y] eqn:Hx; [discriminate|].
      destruct (comprehension f xs) as [e|ys'] eqn:Hxs; [discriminate|].
      intros [= <-]. constructor; [assumption | now apply IH].
Qed.

Lemma app_extract_ok (stream : bytes) (texts : list str) (w : log) :
  parses stream texts ->
  App.extract_text_from_pdf stream w = (inr (List.concat texts), w ++ [FitzOpen stream]).
Proof.
  intros (doc & Hopen & Hpages). apply comprehension_all in Hpages.
  unfold App.extract_text_from_pdf. run_monad.
  now rewrite Hopen, Hpages, join_empty.
Qed.

Lemma main_extract_ok (stream : bytes) (texts : list str) (w : log) :
  parses stream texts ->
  Main.extract_text_from_pdf stream w = (inr (List.concat texts), w ++ [FitzOpen stream]).
Proof.
  intros (doc & Hopen & Hpages). apply comprehension_all in Hpages.
  unfold Main.extract_text_from_pdf. run_monad.
  now rewrite Hopen, Hpages, join_empty.
Qed.

Lemma app_extract_fails (stream : bytes) (e : exn) (w : log) :
  parse_fails stream e ->
  App.extract_text_from_pdf stream w =
  (inl (HTTPException 500 (lit "PDF extraction failed: " ++ str_exn e)),
   w ++ [FitzOpen stream]).
Proof.
  unfold App.extract_text_from_pdf. run_monad.
  intros [Hopen | (doc & Hopen & Hpages)]; rewrite Hopen; [reflexivity|].
  now rewrite Hpages.
Qed.

Lemma main_extract_fails (stream : bytes) (e : exn) (w : log) :
  parse_fails stream e ->
  Main.extract_text_from_pdf stream w =
  (inr [],
   w ++ [FitzOpen stream; StError (lit "PDF extraction failed: " ++ str_exn e)]).
Proof.
  unfold Main.extract_text_from_pdf. run_monad.
  intros [Hopen | (doc & Hopen & Hpages)]; rewrite Hopen; [|rewrite Hpages];
    now rewrite <- app_assoc.
Qed.

(** Every stream either parses or fails to. *)
Lemma parses_or_fails (stream : bytes) :
  (exists texts, parses stream texts) \/ (exists e, parse_fails stream e).
Proof.
  unfold parses, parse_fails.
  destruct (fitz_open stream) as [e|doc] eqn:Hopen; [right; eauto|].
  destruct (comprehension get_text doc) as [e|texts] eqn:Hpages.
  - right. exists e. right. eauto.
  - left. exists texts, doc. split; [reflexivity | now apply comprehension_all].
Qed.

End ProgramFacts.

(* ================================================================== *)
(** * The document assembler *)
(* ================================================================== *)

Section CreatePdfFacts.
Context {ext : Externals}.

Lemma sections_have_colon (plan : str) :
  Forall (fun b => contains COLON b = true) (sections plan).
Proof. apply Forall_forall. intros b Hb. now apply filter_In in Hb. Qed.

Lemma app_loop_sections (plan : str) (w : log) :
  for_each (blocks plan) App.section_body title_block w =
  for_each (sections plan) App.section_body title_block w.
Proof. apply (for_each_filter App.section_body (contains COLON) app_section_plain). Qed.

Lemma main_loop_sections (plan : str) (w : log) :
  for_each (blocks plan) Main.section_body title_block w =
  for_each (sections plan) Main.section_body title_block w.
Proof. apply (for_each_filter Main.section_body (contains COLON) main_section_plain). Qed.

Lemma app_create_pdf_returned (plan : str) (w w' : log) (story : list flowable) :
  App.create_pdf plan w = (inr (DocBuild story), w') ->
  Forall (fun b => first_error (app_texts b) = None) (sections plan) /\
  exists images,
    images_served (sections plan) w images /\
    story = title_block ++ render_all app_render (sections plan) images /\
    w' = w ++ map image_call (sections plan).
Proof.
  rewrite app_create_pdf_loop, app_loop_sections. intros Hrun.
  destruct (for_each (sections plan) App.section_body title_block w)
    as [[e|story0] w0] eqn:Hloop; [discriminate|].
  injection Hrun as <- <-.
  exact (assemble_returned App.section_body app_render app_texts
           app_section_colon image_generator_logs
           (sections plan) (sections_have_colon plan) _ _ _ _ Hloop).
Qed.

Lemma main_create_pdf_returned (plan : str) (w w' : log) (story : list flowable) :
  Main.create_pdf plan w = (inr (DocBuild story), w') ->
  Forall (fun b => first_error (main_texts b) = None) (sections plan) /\
  exists images,
    images_served (sections plan) w images /\
    story = title_block ++ render_all main_render (sections plan) images /\
    w' = w ++ map image_call (sections plan).
Proof.
  rewrite main_create_pdf_loop, main_loop_sections. intros Hrun.
  destruct (for_each (sections plan) Main.section_body title_block w)
    as [[e|story0] w0] eqn:Hloop; [discriminate|].
  injection Hrun as <- <-.
  exact (assemble_returned Main.section_body main_render main_texts
           main_section_colon image_generator_logs
           (sections plan) (sections_have_colon plan) _ _ _ _ Hloop).
Qed.

Lemma app_create_pdf_returns (plan : str) (w : log) (images : list bytes) :
  Forall (fun b => first_error (app_texts b) = None) (sections plan) ->
  images_served (sections plan) w images ->
  App.create_pdf plan w =
  (inr (DocBuild (title_block ++ render_all app_render (sections plan) images)),
   w ++ map image_call (sections plan)).
Proof.
  intros Hok Hserved. rewrite app_create_pdf_loop, app_loop_sections.
  now rewrite (assemble_returns App.section_body app_render app_texts
                 app_section_colon (sections plan) (sections_have_colon plan)
                 Hok images title_block w Hserved).
Qed.

Lemma main_create_pdf_returns (plan : str) (w : log) (images : list bytes) :
  Forall (fun b => first_error (main_texts b) = None) (sections plan) ->
  images_served (sections plan) w images ->
  Main.create_pdf plan w =
  (inr (DocBuild (title_block ++ render_all main_render (sections plan) images)),
   w ++ map image_call (sections plan)).
Proof.
  intros Hok Hserved. rewrite main_create_pdf_loop, main_loop_sections.
  now rewrite (assemble_returns Main.section_body main_render main_texts
                 main_section_colon (sections plan) (sections_have_colon plan)
                 Hok images title_block w Hserved).
Qed.

Lemma app_story_shape (secs : list str) (images : list bytes) :
  List.length images = List.length secs ->
  let story := title_block ++ render_all app_render secs images in
  heading_texts story = map (fun b => heading_of b ++ COLON) secs /\
  image_count story = List.length secs /\
  List.length story = (2 + 6 * List.length secs)%nat.
Proof.
  intros Hlen story. subst story.
  destruct (render_all_shape app_render (fun b => heading_of b ++ COLON) 6
              (fun _ _ => eq_refl) (fun _ _ => eq_refl) (fun _ _ => eq_refl)
              secs images Hlen) as (Hh & Hi & Hl).
  rewrite heading_texts_app, image_count_app, length_app, Hh, Hi, Hl.
  repeat split.
Qed.

Lemma main_story_shape (secs : list str) (images : list bytes) :
  List.length images = List.length secs ->
  let story := title_block ++ render_all main_render secs images in
  heading_texts story = map (fun b => lit "<b>" ++ heading_of b ++ lit ":</b>") secs /\
  image_count story = List.length secs /\
  List.length story = (2 + 6 * List.length secs)%nat.
Proof.
  intros Hlen story. subst story.
  assert (Hshape :
            forall b image,
              heading_texts (main_render b image) =
                [lit "<b>" ++ heading_of b ++ lit ":</b>"] /\
              image_count (main_render b image) = 1%nat).
  { intros b image. unfold main_render, bullets_or_paragraph.
    destruct (contains NL (body_of b)); now split. }
  destruct (render_all_shape main_render
              (fun b => lit "<b>" ++ heading_of b ++ lit ":</b>") 6
              (fun b i => proj1 (Hshape b i)) (fun b i => proj2 (Hshape b i))
              (fun _ _ => eq_refl) secs images Hlen) as (Hh & Hi & Hl).
  rewrite heading_texts_app, image_count_app, length_app, Hh, Hi, Hl.
  repeat split.
Qed.

End CreatePdfFacts.

(** C1, as the claim states it, fails. With three sections and an image
    service that refuses the second request, [create_pdf] makes two
    calls and returns no document, so no heading is emitted. With the
    services up and one section whose body is not markup ReportLab
    reads, it makes no call and returns no document. *)
Lemma create_pdf_may_emit_nothing :
  List.length (sections three_sections) = 3%nat /\
  @App.create_pdf Sample.flaky three_sections [] =
    (inl (HTTPError 500),
     [RequestsPost (@App.image_request Sample.flaky (lit "one"));
      RequestsPost (@App.image_request Sample.flaky (lit "two"))]) /\
  List.length (sections (lit "A: if x<y then stop")) = 1%nat /\
  @App.create_pdf Sample.healthy (lit "A: if x<y then stop") [] = (inl ValueError, []) /\
  @Main.create_pdf Sample.healthy (lit "A: if x<y then stop") [] = (inl ValueError, []).
Proof. repeat split. Qed.

(** C1, amended. For a lesson plan whose split on blank lines has N
    blocks with a colon, every run of [create_pdf] (of either program)
    that returns a document has emitted exactly N headings and N images
    and made exactly N image calls, all in the order of the blocks, and
    its story has the two title flowables and six flowables per section
    and nothing else. It does return when ReportLab accepts the paragraph
    texts of every section and the image service answers the calls one
    after the other. A block without a colon passes the story and the log
    on unchanged. *)
Theorem create_pdf_one_heading_and_call_per_section
  {ext : Externals} (plan : str) (w : log) :
  let N := List.length (sections plan) in
  (forall story w',
     App.create_pdf plan w = (inr (DocBuild story), w') ->
     w' = w ++ map image_call (sections plan) /\
     heading_texts story = map (fun b => heading_of b ++ COLON) (sections plan) /\
     image_count story = N /\
     List.length story = (2 + 6 * N)%nat) /\
  (forall story w',
     Main.create_pdf plan w = (inr (DocBuild story), w') ->
     w' = w ++ map image_call (sections plan) /\
     heading_texts story =
       map (fun b => lit "<b>" ++ heading_of b ++ lit ":</b>") (sections plan) /\
     image_count story = N /\
     List.length story = (2 + 6 * N)%nat) /\
  (forall images,
     images_served (sections plan) w images ->
     (Forall (fun b => first_error (app_texts b) = None) (sections plan) ->
      exists story,
        App.create_pdf plan w =
        (inr (DocBuild story), w ++ map image_call (sections plan))) /\
     (Forall (fun b => first_error (main_texts b) = None) (sections plan) ->
      exists story,
        Main.create_pdf plan w =
        (inr (DocBuild story), w ++ map image_call (sections plan)))) /\
  List.length (map image_call (sections plan)) = N /\
  (forall b story w', contains COLON b = false ->
     App.section_body b story w' = (inr story, w') /\
     Main.section_body b story w' = (inr story, w')).
Proof.
  intros N. subst N. split; [|split; [|split; [|split]]].
  - intros story w' Hrun.
    destruct (app_create_pdf_returned plan w w' story Hrun)
      as (_ & images & Hserved & -> & ->).
    split; [reflexivity|].
    apply app_story_shape.
    exact (images_served_length (sections plan) w images Hserved).
  - intros story w' Hrun.
    destruct (main_create_pdf_returned plan w w' story Hrun)
      as (_ & images & Hserved & -> & ->).
    split; [reflexivity|].
    apply main_story_shape.
    exact (images_served_length (sections plan) w images Hserved).
  - intros images Hserved. split; intros Hok; eexists.
    + exact (app_create_pdf_returns plan w images Hok Hserved).
    + exact (main_create_pdf_returns plan w images Hok Hserved).
  - apply length_map.
  - intros b story w' Hb. split;
      [now apply app_section_plain | now apply main_section_plain].
Qed.

Example remark_plan_run :
  sections remark_plan = [lit "Intro: Hello"; lit "Body: World\nWide"] /\
  @images_served Sample.healthy (sections remark_plan) []
    [[x48; x65; x6c; x6c; x6f];
     [x57; x6f; x72; x6c; x64; x0a; x57; x69; x64; x65]] /\
  Forall (fun b => @first_error Sample.healthy (app_texts b) = None)
         (sections remark_plan) /\
  Forall (fun b => @first_error Sample.healthy (main_texts b) = None)
         (sections remark_plan) /\
  map (fun b => heading_of b ++ COLON) (sections remark_plan) =
    [lit "Intro:"; lit "Body:"] /\
  map (fun b => lit "<b>" ++ heading_of b ++ lit ":</b>") (sections remark_plan) =
    [lit "<b>Intro:</b>"; lit "<b>Body:</b>"].
Proof.
  assert (Hsections :
            sections remark_plan = [lit "Intro: Hello"; lit "Body: World\nWide"])
    by (vm_compute; reflexivity).
  rewrite Hsections.
  split; [reflexivity|].
  split; [vm_compute; repeat split|].
  split; [repeat (constructor; [vm_compute; reflexivity|]); constructor|].
  split; [repeat (constructor; [vm_compute; reflexivity|]); constructor|].
  split; vm_compute; reflexivity.
Qed.

Lemma create_pdf_one_heading_and_call_per_section_witness :
  sections remark_plan = [lit "Intro: Hello"; lit "Body: World\nWide"] /\
  exists story_app story_main,
    fst (@App.create_pdf Sample.healthy remark_plan []) = inr (DocBuild story_app) /\
    fst (@Main.create_pdf Sample.healthy remark_plan []) = inr (DocBuild story_main) /\
    heading_texts story_app = [lit "Intro:"; lit "Body:"] /\
    heading_texts story_main = [lit "<b>Intro:</b>"; lit "<b>Body:</b>"] /\
    image_count story_app = 2%nat /\ image_count story_main = 2%nat.
Proof.
  destruct remark_plan_run as (Hsections & Hserved & Hok_app & Hok_main & Hmark_app & Hmark_main).
  split; [exact Hsections|].
  destruct (@create_pdf_one_heading_and_call_per_section
              Sample.healthy remark_plan [])
    as (Happ & Hmain & Hreturns & _).
  destruct (Hreturns _ Hserved) as (Hra & Hrm).
  destruct (Hra Hok_app) as (story_app & Hsa).
  destruct (Hrm Hok_main) as (story_main & Hsm).
  destruct (Happ story_app _ Hsa) as (_ & Hha & Hia & _).
  destruct (Hmain story_main _ Hsm) as (_ & Hhm & Him & _).
  rewrite Hmark_app in Hha. rewrite Hmark_main in Hhm.
  rewrite Hsections in Hia, Him.
  exists story_app, story_main. rewrite Hsa, Hsm.
  repeat split; assumption.
Defined.

(** C7. A block with a colon is split at its first colon: the heading
    part holds no colon, whatever follows the first colon (later colons
    included) is the body part, and unpacking the two parts never fails.
    Both programs trim both parts before they use them: the heading
    paragraph is made of the trimmed heading part, the body paragraph or
    the bullet list of the trimmed body part, and the image is asked for
    the trimmed body part; a text ReportLab does not accept ends the
    section with its exception before the image call. Trimming removes
    whitespace, and nothing else, from the two ends. *)
Theorem section_split_at_first_colon
  {ext : Externals} (block : str) (story : list flowable) (w : log) :
  contains COLON block = true ->
  let heading := before 58%N block in
  let content := after 58%N block in
  split COLON (Some 1%nat) block = [heading; content] /\
  block = heading ++ COLON ++ content /\
  contains COLON heading = false /\
  App.section_body block story w =
    match first_error [strip heading ++ COLON; strip content] with
    | Some e => (inl e, w)
    | None =>
        match App.generate_image_from_text (strip content) w with
        | (inr image, w') =>
            (inr (story ++
                  [Paragraph (strip heading ++ COLON) App.heading_style;
                   Spacer 1 12;
                   Paragraph (strip content) App.body_style;
                   Spacer 1 12;
                   Image image (4 * inch) (3 * inch) (lit "CENTER");
                   Spacer 1 24]), w')
        | (inl e, w') => (inl e, w')
        end
    end /\
  Main.section_body block story w =
    match first_error
            ((lit "<b>" ++ strip heading ++ lit ":</b>")
               :: (if contains NL (strip content)
                   then map strip (split NL None (strip content))
                   else [strip content])) with
    | Some e => (inl e, w)
    | None =>
        match Main.generate_image_from_text (strip content) w with
        | (inr image, w') =>
            (inr (story ++
                  [Paragraph (lit "<b>" ++ strip heading ++ lit ":</b>")
                             Main.heading_style;
                   Spacer 1 12;
                   (if contains NL (strip content)
                    then ListFlowable
                           (map (fun line =>
                                   ListItem (Paragraph (strip line) Main.bullet_style))
                                (split NL None (strip content)))
                           (lit "bullet")
                    else Paragraph (strip content) Main.body_style);
                   Spacer 1 12;
                   Image image (8 * inch) (3 * inch) (lit "CENTER");
                   Spacer 1 24]), w')
        | (inl e, w') => (inl e, w')
        end
    end /\
  (forall s : str,
     exists l r,
       s = l ++ strip s ++ r /\
       forallb isspace l = true /\ forallb isspace r = true /\
       match strip s with [] => True | x :: _ => isspace x = false end /\
       match rev (strip s) with [] => True | x :: _ => isspace x = false end).
Proof.
  intros Hb heading content. subst heading content.
  pose proof Hb as Hin. change COLON with [58%N] in Hin.
  repeat split.
  - exact (split_first _ _ Hin).
  - apply before_after. now apply contains_char_In.
  - change COLON with [58%N].
    destruct (contains [58%N] (before 58%N block)) eqn:E; [|reflexivity].
    apply contains_char_In in E. now apply before_free in E.
  - exact (app_section_colon block story w Hb).
  - exact (main_section_colon block story w Hb).
  - apply strip_spec.
Qed.

Lemma section_split_at_first_colon_witness :
  contains COLON (lit "Time:  10:30 sharp ") = true /\
  split COLON (Some 1%nat) (lit "Time:  10:30 sharp ") = [lit "Time"; lit "  10:30 sharp "] /\
  fst (@App.section_body Sample.healthy (lit "Time:  10:30 sharp ") [] []) =
  inr [Paragraph (lit "Time:") App.heading_style;
       Spacer 1 12;
       Paragraph (lit "10:30 sharp") App.body_style;
       Spacer 1 12;
       Image [x31; x30; x3a; x33; x30; x20; x73; x68; x61; x72; x70]
             (4 * inch) (3 * inch) (lit "CENTER");
       Spacer 1 24] /\
  fst (@Main.section_body Sample.healthy (lit " Steps :  one \n two: b  ") [] []) =
  inr [Paragraph (lit "<b>Steps:</b>") Main.heading_style;
       Spacer 1 12;
       ListFlowable
         [ListItem (Paragraph (lit "one") Main.bullet_style);
          ListItem (Paragraph (lit "two: b") Main.bullet_style)]
         (lit "bullet");
       Spacer 1 12;
       Image [x6f; x6e; x65; x20; x0a; x20; x74; x77; x6f; x3a; x20; x62]
             (8 * inch) (3 * inch) (lit "CENTER");
       Spacer 1 24] /\
  @Main.section_body Sample.healthy (lit "Rule: x<y") [] [] = (inl ValueError, []).
Proof.
  split; [reflexivity|].
  destruct (@section_split_at_first_colon Sample.healthy
              (lit "Time:  10:30 sharp ") [] [] eq_refl)
    as (Hsplit & _ & _ & Happ & _).
  destruct (@section_split_at_first_colon Sample.healthy
              (lit " Steps :  one \n two: b  ") [] [] eq_refl)
    as (_ & _ & _ & _ & Hmain & _).
  destruct (@section_split_at_first_colon Sample.healthy
              (lit "Rule: x<y") [] [] eq_refl)
    as (_ & _ & _ & _ & Hrefused & _).
  split; [exact Hsplit|].
  rewrite Happ, Hmain, Hrefused. repeat split.
Defined.

(** C9. A lesson plan that is empty, or none of whose blocks has a colon,
    still gives a document: its story is the title "Lesson Plan" with the
    spacer after it and nothing else, and no call is made. *)
Theorem create_pdf_title_only {ext : Externals} (plan : str) (w : log) :
  forallb (fun b => negb (contains COLON b)) (blocks plan) = true ->
  let title_only :=
    DocBuild [Paragraph (lit "Lesson Plan") (Style Title None None); Spacer 1 24] in
  App.create_pdf plan w = (inr title_only, w) /\
  Main.create_pdf plan w = (inr title_only, w) /\
  App.create_pdf [] w = (inr title_only, w) /\
  Main.create_pdf [] w = (inr title_only, w).
Proof.
  intros Hnone title_only. subst title_only.
  rewrite app_create_pdf_loop, main_create_pdf_loop.
  rewrite (assemble_plain App.section_body app_section_plain _ _ _ Hnone).
  rewrite (assemble_plain Main.section_body main_section_plain _ _ _ Hnone).
  repeat split.
Qed.

Lemma create_pdf_title_only_witness :
  blocks (lit "no labels here\n\nnor here") = [lit "no labels here"; lit "nor here"] /\
  @Main.create_pdf Sample.flaky (lit "no labels here\n\nnor here") [] =
  (inr (DocBuild [Paragraph (lit "Lesson Plan") (Style Title None None); Spacer 1 24]),
   []).
Proof.
  split; [reflexivity|].
  exact (proj1 (proj2 (@create_pdf_title_only Sample.flaky
                         (lit "no labels here\n\nnor here") [] eq_refl))).
Defined.

(** C5. When the image generator raises for one section (the request
    fails, the service answers with a 4xx or 5xx status, or the answer
    holds nothing the generator can use), the sections before it having
    been laid out and the paragraphs of this one accepted, [create_pdf]
    raises that exception: no document is returned, and the log ends with
    the failing call, so no later block is looked at. *)
Theorem image_failure_aborts_create_pdf
  {ext : Externals} (plan : str) (pre post : list str) (b : str) (w w1 : log) :
  blocks plan = pre ++ b :: post ->
  contains COLON b = true ->
  let w2 := w1 ++ [image_call b] in
  (forall story1,
     for_each pre App.section_body title_block w = (inr story1, w1) ->
     first_error (app_texts b) = None ->
     (forall e, fst (App.generate_image_from_text (body_of b) w1) = inl e ->
                App.create_pdf plan w = (inl e, w2)) /\
     (forall r, requests_post w1 (App.image_request (body_of b)) = inr r ->
                ((400 <=? status r) && (status r <? 600))%Z = true ->
                App.create_pdf plan w = (inl (HTTPError (status r)), w2)) /\
     (unanswered w1 (App.image_request (body_of b)) ->
      exists e, App.create_pdf plan w = (inl e, w2))) /\
  (forall story1,
     for_each pre Main.section_body title_block w = (inr story1, w1) ->
     first_error (main_texts b) = None ->
     (forall e, fst (Main.generate_image_from_text (body_of b) w1) = inl e ->
                Main.create_pdf plan w = (inl e, w2)) /\
     (forall r, requests_post w1 (Main.image_request (body_of b)) = inr r ->
                ((400 <=? status r) && (status r <? 600))%Z = true ->
                Main.create_pdf plan w = (inl (HTTPError (status r)), w2)) /\
     (unanswered w1 (Main.image_request (body_of b)) ->
      exists e, Main.create_pdf plan w = (inl e, w2))).
Proof.
  intros Hblocks Hb w2. subst w2.
  assert (Hgen : forall e,
             fst (App.generate_image_from_text (body_of b) w1) = inl e ->
             App.generate_image_from_text (body_of b) w1 = (inl e, w1 ++ [image_call b])).
  { intros e He. pose proof (image_generator_logs (body_of b) w1) as Hlog.
    destruct (App.generate_image_from_text (body_of b) w1) as [r w'].
    cbn [fst snd] in He, Hlog. now subst. }
  split.
  - intros story1 Hpre Hacc.
    assert (Habort : forall e,
               fst (App.generate_image_from_text (body_of b) w1) = inl e ->
               App.create_pdf plan w = (inl e, w1 ++ [image_call b])).
    { intros e He. rewrite app_create_pdf_loop, Hblocks.
      now rewrite (assemble_abort App.section_body app_render app_texts
                     app_section_colon pre post b _ _ _ _ _ _
                     Hpre Hb Hacc (Hgen e He)). }
    split; [exact Habort|]. split.
    + intros r Hr Hs. apply Habort.
      now rewrite (image_generator_refused (body_of b) w1 r Hr Hs).
    + intros Hbad. destruct (image_generator_raises (body_of b) w1 Hbad) as (e & He).
      exists e. apply Habort. now rewrite He.
  - intros story1 Hpre Hacc.
    assert (Habort : forall e,
               fst (Main.generate_image_from_text (body_of b) w1) = inl e ->
               Main.create_pdf plan w = (inl e, w1 ++ [image_call b])).
    { intros e He. rewrite main_create_pdf_loop, Hblocks.
      now rewrite (assemble_abort Main.section_body main_render main_texts
                     main_section_colon pre post b _ _ _ _ _ _
                     Hpre Hb Hacc (Hgen e He)). }
    split; [exact Habort|]. split.
    + intros r Hr Hs. apply Habort.
      change (Main.generate_image_from_text (body_of b) w1)
        with (App.generate_image_from_text (body_of b) w1).
      now rewrite (image_generator_refused (body_of b) w1 r Hr Hs).
    + intros Hbad. destruct (image_generator_raises (body_of b) w1 Hbad) as (e & He).
      exists e. apply Habort.
      change (Main.generate_image_from_text (body_of b) w1)
        with (App.generate_image_from_text (body_of b) w1).
      now rewrite He.
Qed.

Lemma image_failure_aborts_create_pdf_witness :
  blocks three_sections = [lit "A: one"] ++ lit "B: two" :: [lit "C: three"] /\
  @App.create_pdf Sample.flaky three_sections [] =
    (inl (HTTPError 500),
     [RequestsPost (@App.image_request Sample.flaky (lit "one"));
      RequestsPost (@App.image_request Sample.flaky (lit "two"))]) /\
  @Main.create_pdf Sample.flaky three_sections [] =
    (inl (HTTPError 500),
     [RequestsPost (@App.image_request Sample.flaky (lit "one"));
      RequestsPost (@App.image_request Sample.flaky (lit "two"))]).
Proof.
  split; [reflexivity|].
  destruct (@image_failure_aborts_create_pdf Sample.flaky three_sections
              [lit "A: one"] [lit "C: three"] (lit "B: two") []
              [RequestsPost (@App.image_request Sample.flaky (lit "one"))]
              eq_refl eq_refl)
    as (Happ & Hmain).
  split.
  - refine (proj1 (proj2 (Happ _ _ eq_refl)) (Response 500 (inl ValueError)) eq_refl eq_refl).
    reflexivity.
  - refine (proj1 (proj2 (Hmain _ _ eq_refl)) (Response 500 (inl ValueError)) eq_refl eq_refl).
    reflexivity.
Defined.

(** C2, as the claim states it, fails for [app.py]: on the sample plan its
    assembler lays the two-line body out as one paragraph, and its story
    holds no bullet list. *)
Lemma app_create_pdf_has_no_bullet_list :
  exists story,
    fst (@App.create_pdf Sample.healthy Sample.sample_plan []) = inr (DocBuild story) /\
    In (Paragraph (lit "World\nWide") App.body_style) story /\
    existsb is_list_flowable story = false.
Proof.
  eexists. split; [vm_compute; reflexivity|].
  split; [|reflexivity].
  do 10 right. left. reflexivity.
Qed.

(** C2, amended. In [main.py], when ReportLab accepts the heading and the
    lines of the body as paragraphs and the image call returns, a section
    whose trimmed body has a line feed gets a bullet list with one item
    per line, as many items as there are lines (one more than line
    feeds), and a section whose trimmed body has none gets one justified
    paragraph. In [app.py], under the same conditions, the trimmed body is
    one justified paragraph in both cases. For the plan
    "Intro: Hello\n\nBody: World\nWide", [main.py] gives heading and
    paragraph "Hello" for "Intro", heading and the bullet list "World",
    "Wide" for "Body", each followed by its image. *)
Theorem main_body_bullets_or_paragraph
  {ext : Externals} (block : str) (story : list flowable)
  (w w' : log) (image : bytes) :
  contains COLON block = true ->
  let around (text : flowable) (width : Z) (heading : str) :=
    story ++
    [Paragraph heading (Style Heading2 (Some TA_CENTER) None); Spacer 1 12;
     text; Spacer 1 12;
     Image image (width * inch) (3 * inch) (lit "CENTER"); Spacer 1 24] in
  let lines := split NL None (body_of block) in
  let bullets :=
    ListFlowable
      (map (fun line => ListItem (Paragraph (strip line) (Style Bullet None None)))
           lines)
      (lit "bullet") in
  let paragraph :=
    Paragraph (body_of block) (Style BodyText (Some TA_JUSTIFY) (Some 14%Z)) in
  (Main.generate_image_from_text (body_of block) w = (inr image, w') ->
   paragraph_error (lit "<b>" ++ heading_of block ++ lit ":</b>") = None ->
   (contains NL (body_of block) = true ->
    first_error (map strip lines) = None ->
    Main.section_body block story w =
      (inr (around bullets 8%Z (lit "<b>" ++ heading_of block ++ lit ":</b>")), w') /\
    List.length lines = S (count_occ N.eq_dec (body_of block) 10%N)) /\
   (contains NL (body_of block) = false ->
    paragraph_error (body_of block) = None ->
    Main.section_body block story w =
      (inr (around paragraph 8%Z (lit "<b>" ++ heading_of block ++ lit ":</b>")), w'))) /\
  (App.generate_image_from_text (body_of block) w = (inr image, w') ->
   paragraph_error (heading_of block ++ COLON) = None ->
   paragraph_error (body_of block) = None ->
   App.section_body block story w =
     (inr (around paragraph 4%Z (heading_of block ++ COLON)), w')) /\
  (forall image1 image2 w0 w1 w2,
     first_error [lit "<b>Intro:</b>"; lit "Hello";
                  lit "<b>Body:</b>"; lit "World"; lit "Wide"] = None ->
     Main.generate_image_from_text (lit "Hello") w0 = (inr image1, w1) ->
     Main.generate_image_from_text (lit "World\nWide") w1 = (inr image2, w2) ->
     Main.create_pdf (lit "Intro: Hello\n\nBody: World\nWide") w0 =
     (inr (DocBuild
             [Paragraph (lit "Lesson Plan") (Style Title None None);
              Spacer 1 24;
              Paragraph (lit "<b>Intro:</b>") (Style Heading2 (Some TA_CENTER) None);
              Spacer 1 12;
              Paragraph (lit "Hello") (Style BodyText (Some TA_JUSTIFY) (Some 14%Z));
              Spacer 1 12;
              Image image1 (8 * inch) (3 * inch) (lit "CENTER");
              Spacer 1 24;
              Paragraph (lit "<b>Body:</b>") (Style Heading2 (Some TA_CENTER) None);
              Spacer 1 12;
              ListFlowable
                [ListItem (Paragraph (lit "World") (Style Bullet None None));
                 ListItem (Paragraph (lit "Wide") (Style Bullet None None))]
                (lit "bullet");
              Spacer 1 12;
              Image image2 (8 * inch) (3 * inch) (lit "CENTER");
              Spacer 1 24]),
      w2)).
Proof.
  intros Hb around lines bullets paragraph.
  subst around lines bullets paragraph. cbn beta.
  split; [|split].
  - intros Hgen Hhead. split.
    + intros Hnl Hlines. split; [|apply split_char_length].
      rewrite (main_section_colon block story w Hb).
      unfold main_texts, body_texts. cbn [first_error].
      rewrite Hhead, Hnl, Hlines, Hgen.
      unfold main_render, bullets_or_paragraph. now rewrite Hnl.
    + intros Hnl Hbody.
      rewrite (main_section_colon block story w Hb).
      unfold main_texts, body_texts. cbn [first_error].
      rewrite Hhead, Hnl. cbn [first_error]. rewrite Hbody, Hgen.
      unfold main_render, bullets_or_paragraph. now rewrite Hnl.
  - intros Hgen Hhead Hbody.
    rewrite (app_section_colon block story w Hb).
    unfold app_texts. cbn [first_error]. now rewrite Hhead, Hbody, Hgen.
  - intros image1 image2 w0 w1 w2 Hacc H1 H2.
    cbn [first_error] in Hacc.
    destruct (paragraph_error (lit "<b>Intro:</b>")) eqn:A1; [discriminate|].
    destruct (paragraph_error (lit "Hello")) eqn:A2; [discriminate|].
    destruct (paragraph_error (lit "<b>Body:</b>")) eqn:A3; [discriminate|].
    destruct (paragraph_error (lit "World")) eqn:A4; [discriminate|].
    destruct (paragraph_error (lit "Wide")) eqn:A5; [discriminate|].
    rewrite main_create_pdf_loop.
    change (blocks (lit "Intro: Hello\n\nBody: World\nWide"))
      with [lit "Intro: Hello"; lit "Body: World\nWide"].
    cbn [for_each]. unfold bind.
    rewrite (main_section_colon (lit "Intro: Hello") title_block w0 eq_refl).
    change (main_texts (lit "Intro: Hello")) with [lit "<b>Intro:</b>"; lit "Hello"].
    change (body_of (lit "Intro: Hello")) with (lit "Hello").
    cbn [first_error]. rewrite A1, A2, H1.
    rewrite (main_section_colon (lit "Body: World\nWide") _ w1 eq_refl).
    change (main_texts (lit "Body: World\nWide"))
      with [lit "<b>Body:</b>"; lit "World"; lit "Wide"].
    change (body_of (lit "Body: World\nWide")) with (lit "World\nWide").
    cbn [first_error]. rewrite A3, A4, A5, H2. reflexivity.
Qed.

Lemma main_body_bullets_or_paragraph_witness :
  contains COLON (lit "Body: World\nWide") = true /\
  contains NL (body_of (lit "Body: World\nWide")) = true /\
  fst (@Main.section_body Sample.healthy (lit "Body: World\nWide") [] []) =
  inr [Paragraph (lit "<b>Body:</b>") (Style Heading2 (Some TA_CENTER) None);
       Spacer 1 12;
       ListFlowable
         [ListItem (Paragraph (lit "World") (Style Bullet None None));
          ListItem (Paragraph (lit "Wide") (Style Bullet None None))]
         (lit "bullet");
       Spacer 1 12;
       Image [x57; x6f; x72; x6c; x64; x0a; x57; x69; x64; x65]
             (8 * inch) (3 * inch) (lit "CENTER");
       Spacer 1 24] /\
  fst (@App.section_body Sample.healthy (lit "Body: World\nWide") [] []) =
  inr [Paragraph (lit "Body:") (Style Heading2 (Some TA_CENTER) None);
       Spacer 1 12;
       Paragraph (lit "World\nWide") (Style BodyText (Some TA_JUSTIFY) (Some 14%Z));
       Spacer 1 12;
       Image [x57; x6f; x72; x6c; x64; x0a; x57; x69; x64; x65]
             (4 * inch) (3 * inch) (lit "CENTER");
       Spacer 1 24].
Proof.
  split; [reflexivity|]. split; [reflexivity|].
  destruct (@main_body_bullets_or_paragraph Sample.healthy
              (lit "Body: World\nWide") [] []
              [RequestsPost (@App.image_request Sample.healthy (lit "World\nWide"))]
              [x57; x6f; x72; x6c; x64; x0a; x57; x69; x64; x65]
              eq_refl)
    as (Hmain & Happ & _).
  destruct (Hmain eq_refl eq_refl) as [Hlist _].
  destruct (Hlist eq_refl eq_refl) as [Hbullets _].
  rewrite Hbullets, (Happ eq_refl eq_refl eq_refl). split; reflexivity.
Defined.

(* ================================================================== *)
(** * The two entry points compared *)
(* ================================================================== *)

Section Compared.
Context {ext : Externals}.




End Compared.


(** The two assemblers make paragraphs of different texts, so one can
    return where the other raises: [app.py] reads the whole body as one
    paragraph, [main.py] each line as its own. *)
Example assemblers_may_stop_differently :
  (exists story,
     @App.create_pdf Sample.healthy (lit "H: <b>x\ny</b>") [] =
     (inr (DocBuild story),
      [RequestsPost (@App.image_request Sample.healthy (lit "<b>x\ny</b>"))])) /\
  @Main.create_pdf Sample.healthy (lit "H: <b>x\ny</b>") [] = (inl ValueError, []).
Proof. split; [eexists|]; vm_compute; reflexivity. Qed.



(* ================================================================== *)
(** * The endpoint, the extractor, the script *)
(* ================================================================== *)

(** C4. An upload whose file name does not end in ".pdf", "notes.txt" for
    one, is refused with an [HTTPException] of status 400; the log is
    untouched: PyMuPDF has not been called and no request has been sent. *)
Theorem upload_rejects_other_file_names
  {ext : Externals} (filename : str) (file_content : bytes) (w : log) :
  endswith (lit ".pdf") filename = false ->
  App.upload_and_generate_plan filename file_content w =
  (inl (HTTPException 400 (lit "Only PDF files are allowed.")), w).
Proof.
  intros Hname. unfold App.upload_and_generate_plan. now rewrite Hname.
Qed.

Lemma upload_rejects_other_file_names_witness :
  endswith (lit ".pdf") (lit "notes.txt") = false /\
  @App.upload_and_generate_plan Sample.healthy (lit "notes.txt") [x41; x42] [] =
  (inl (HTTPException 400 (lit "Only PDF files are allowed.")), []).
Proof.
  split; [reflexivity|].
  exact (@upload_rejects_other_file_names Sample.healthy
           (lit "notes.txt") [x41; x42] [] eq_refl).
Defined.

(** C6. When PyMuPDF raises on the stream or on one of its pages, the
    extractor of [app.py] raises an [HTTPException] of status 500 that
    carries the message, and the endpoint ends with it before any request
    is sent; the extractor of [main.py] returns the empty string after
    showing the message with [st.error]. On a stream that parses both
    return the extracted text. *)
Theorem extraction_failure_policies
  {ext : Externals} (stream : bytes) (w : log) :
  (forall e, parse_fails stream e ->
     let detail := lit "PDF extraction failed: " ++ str_exn e in
     App.extract_text_from_pdf stream w =
       (inl (HTTPException 500 detail), w ++ [FitzOpen stream]) /\
     (forall filename, endswith (lit ".pdf") filename = true ->
        App.upload_and_generate_plan filename stream w =
          (inl (HTTPException 500 detail), w ++ [FitzOpen stream])) /\
     Main.extract_text_from_pdf stream w =
       (inr [], w ++ [FitzOpen stream; StError detail])) /\
  (forall texts, parses stream texts ->
     App.extract_text_from_pdf stream w =
       (inr (List.concat texts), w ++ [FitzOpen stream]) /\
     Main.extract_text_from_pdf stream w =
       (inr (List.concat texts), w ++ [FitzOpen stream])).
Proof.
  split.
  - intros e Hf detail. subst detail. split; [|split].
    + now apply app_extract_fails.
    + intros filename Hname. unfold App.upload_and_generate_plan.
      rewrite Hname. cbn [negb]. unfold bind at 1.
      now rewrite (app_extract_fails stream e w Hf).
    + now apply main_extract_fails.
  - intros texts Hp. split;
      [now apply app_extract_ok | now apply main_extract_ok].
Qed.

Lemma extraction_failure_policies_witness :
  @App.extract_text_from_pdf Sample.healthy [] [] =
    (inl (HTTPException 500 (lit "PDF extraction failed: cannot open empty document")),
     [FitzOpen []]) /\
  @Main.extract_text_from_pdf Sample.healthy [] [] =
    (inr [],
     [FitzOpen [];
      StError (lit "PDF extraction failed: cannot open empty document")]) /\
  @Main.extract_text_from_pdf Sample.healthy [x41; x00; x42] [] =
    (inr (lit "AB"), [FitzOpen [x41; x00; x42]]).
Proof.
  destruct (@extraction_failure_policies Sample.healthy [] []) as [Hfail _].
  destruct (Hfail (LibraryError (lit "cannot open empty document")))
    as (Happ & _ & Hmain).
  { left. reflexivity. }
  destruct (@extraction_failure_policies Sample.healthy [x41; x00; x42] [])
    as [_ Hok].
  destruct (Hok [lit "A"; []; lit "B"]) as [_ Hmain_ok].
  { exists [lit "A"; []; lit "B"]. split; [reflexivity|].
    repeat constructor. }
  repeat split; assumption.
Defined.

(** C8. For a stream that PyMuPDF opens and whose pages all give their
    text, both extractors return the page texts concatenated in page order
    with nothing between them, and do not raise; a document that has the
    same pages followed by more pages gives a text at least as long. *)
Theorem extracted_text_is_page_concatenation
  {ext : Externals} (stream : bytes) (texts : list str) (w : log) :
  parses stream texts ->
  App.extract_text_from_pdf stream w =
    (inr (List.concat texts), w ++ [FitzOpen stream]) /\
  Main.extract_text_from_pdf stream w =
    (inr (List.concat texts), w ++ [FitzOpen stream]) /\
  (forall longer more w',
     parses longer (texts ++ more) ->
     exists text',
       App.extract_text_from_pdf longer w' = (inr text', w' ++ [FitzOpen longer]) /\
       Main.extract_text_from_pdf longer w' = (inr text', w' ++ [FitzOpen longer]) /\
       (List.length (List.concat texts) <= List.length text')%nat).
Proof.
  intros Hp. split; [now apply app_extract_ok|].
  split; [now apply main_extract_ok|].
  intros longer more w' Hlonger. exists (List.concat (texts ++ more)).
  split; [now apply app_extract_ok|].
  split; [now apply main_extract_ok|].
  rewrite concat_app, length_app. lia.
Qed.

Lemma extracted_text_is_page_concatenation_witness :
  @App.extract_text_from_pdf Sample.healthy [x41; x42] [] =
    (inr (lit "AB"), [FitzOpen [x41; x42]]) /\
  exists text',
    fst (@Main.extract_text_from_pdf Sample.healthy [x41; x42; x00; x43] []) = inr text' /\
    (2 <= List.length text')%nat.
Proof.
  destruct (@extracted_text_is_page_concatenation Sample.healthy
              [x41; x42] [lit "A"; lit "B"] [])
    as (Happ & _ & Hmore).
  { exists [lit "A"; lit "B"]. split; [reflexivity | repeat constructor]. }
  split; [exact Happ|].
  destruct (Hmore [x41; x42; x00; x43] [[]; lit "C"] [])
    as (text' & _ & Hmain & Hlen).
  { exists [lit "A"; lit "B"; []; lit "C"]. split; [reflexivity | repeat constructor]. }
  exists text'. rewrite Hmain. split; [reflexivity | exact Hlen].
Defined.

(** C10. In the Streamlit script, when extraction fails, or the document
    parses and has no text, the extractor returns the empty string and the
    run ends there: the log gains no request, so neither the lesson-plan
    generator nor any other remote call has run. *)
Theorem script_skips_generation_without_text
  {ext : Externals} (stream : bytes) (clicked : bool) (w : log) :
  (exists e, parse_fails stream e) \/
  (exists texts, parses stream texts /\ List.concat texts = []) ->
  exists new,
    Main.extract_text_from_pdf stream w = (inr [], w ++ new) /\
    Main.script (Some stream) clicked w = (inr tt, w ++ new) /\
    existsb remote_call new = false.
Proof.
  intros [[e Hf] | (texts & Hp & Hempty)].
  - exists [FitzOpen stream; StError (lit "PDF extraction failed: " ++ str_exn e)].
    pose proof (main_extract_fails stream e w Hf) as Hx.
    split; [exact Hx|]. split; [|reflexivity].
    unfold Main.script, try_except, bind. now rewrite Hx.
  - exists [FitzOpen stream].
    pose proof (main_extract_ok stream texts w Hp) as Hx. rewrite Hempty in Hx.
    split; [exact Hx|]. split; [|reflexivity].
    unfold Main.script, try_except, bind. now rewrite Hx.
Qed.

Lemma script_skips_generation_without_text_witness :
  @Main.script Sample.healthy (Some []) true [] =
    (inr tt,
     [FitzOpen [];
      StError (lit "PDF extraction failed: cannot open empty document")]) /\
  @Main.script Sample.healthy (Some [x00; x00]) true [] =
    (inr tt, [FitzOpen [x00; x00]]).
Proof.
  split.
  - destruct (@script_skips_generation_without_text Sample.healthy [] true [])
      as (new & Hx & Hrun & _).
    { left. exists (LibraryError (lit "cannot open empty document")).
      left. reflexivity. }
    rewrite Hrun. injection Hx as <-. reflexivity.
  - destruct (@script_skips_generation_without_text Sample.healthy [x00; x00] true [])
      as (new & Hx & Hrun & _).
    { right. exists [[]; []]. split; [|reflexivity].
      exists [[]; []]. split; [reflexivity | repeat constructor]. }
    rewrite Hrun. injection Hx as <-. reflexivity.
Defined.

(** With text, the same script does call the generator. *)
Example script_generates_with_text :
  snd (@Main.script Sample.healthy (Some [x41]) false []) =
  [FitzOpen [x41];
   RequestsPost (@Main.chat_request Sample.healthy (lit "A"));
   StTextArea (lit "Generated Lesson Plan") (lit "Intro: Hello\n\nBody: World\nWide") 400;
   StButton (lit "Download Lesson Plan as PDF")].
Proof. vm_compute. reflexivity. Qed.

(* ================================================================== *)
(** * More about the string operations the programs rely on *)
(* ================================================================== *)

Section SplitFacts.

Lemma startswith_prefix (pre s : str) :
  startswith pre s = true <-> exists rest, s = pre ++ rest.
Proof.
  revert s. induction pre as [|p pre IH]; intros s.
  - split; [intros _; now exists s | reflexivity].
  - destruct s as [|c s]; cbn [startswith].
    + split; [discriminate | intros (rest & E); discriminate E].
    + rewrite andb_true_iff, N.eqb_eq, IH. split.
      * intros (-> & rest & ->). now exists rest.
      * intros (rest & E). injection E as -> ->. split; [reflexivity | now exists rest].
Qed.

Lemma split_from_skip (sep : str) (m : option nat) (pre rest : str) :
  split_from sep m (List.length pre) (pre ++ rest) = split_from sep m 0 rest.
Proof. induction pre as [|c pre IH]; [reflexivity | exact IH]. Qed.

Lemma split_from_nonempty (sep : str) (s : str) :
  forall m k, split_from sep m k s <> [].
Proof.
  induction s as [|c s IH]; intros m k; [discriminate|].
  cbn [split_from]. destruct k as [|k]; [|apply IH].
  destruct (may_split m && startswith sep (c :: s)); [discriminate|].
  destruct (split_from sep m 0 s); discriminate.
Qed.

Lemma join_cons (sep p : str) (ps : list str) :
  ps <> [] -> join sep (p :: ps) = p ++ sep ++ join sep ps.
Proof. destruct ps; [congruence | reflexivity]. Qed.

Lemma join_cons_char (sep : str) (c : char) (p : str) (ps : list str) :
  join sep ((c :: p) :: ps) = c :: join sep (p :: ps).
Proof. destruct ps; reflexivity. Qed.

(** Joining the pieces of a split with the separator gives the string
    back. *)
Lemma join_split (sep : str) :
  sep <> [] -> forall s, join sep (split sep None s) = s.
Proof.
  intros Hsep s. unfold split.
  induction s as [s IH] using (induction_ltof1 _ (@List.length N)).
  unfold ltof in IH. destruct s as [|c s]; [reflexivity|].
  cbn [split_from may_split andb].
  destruct (startswith sep (c :: s)) eqn:Hstart.
  - apply startswith_prefix in Hstart as (rest & E).
    destruct sep as [|x sep']; [congruence|]. injection E as -> ->.
    cbn [one_less pred List.length]. rewrite split_from_skip.
    rewrite join_cons by apply split_from_nonempty.
    rewrite IH by (cbn; rewrite length_app; lia). reflexivity.
  - pose proof (IH s (Nat.lt_succ_diag_r _)) as IHs.
    destruct (split_from sep None 0 s) as [|p ps] eqn:E.
    + now apply split_from_nonempty in E.
    + rewrite join_cons_char. now f_equal.
Qed.

(** No piece of a split on one character holds that character. *)
Lemma split_char_free (c : char) (s : str) :
  Forall (fun piece => ~ In c piece) (split [c] None s).
Proof.
  unfold split. induction s as [|x s IH]; [repeat constructor; tauto|].
  cbn [split_from may_split andb]. rewrite startswith_char.
  destruct (N.eqb_spec c x) as [->|Hne].
  - constructor; [tauto | exact IH].
  - destruct (split_from [c] None 0 s) as [|p ps]; [repeat constructor; cbn; intuition congruence|].
    inversion IH as [|? ? Hp Hps]; subst. constructor; [|exact Hps].
    cbn. intros [E|Hin]; [congruence | contradiction].
Qed.

Lemma strip_incl (s : str) (x : char) : In x (strip s) -> In x s.
Proof.
  destruct (strip_spec s) as (l & r & E & _). intros Hin.
  rewrite E. apply in_or_app. right. apply in_or_app. now left.
Qed.

End SplitFacts.

(** X1. Splitting loses no text: the blocks of a lesson plan joined by
    blank lines are the plan, and the lines of a body text joined by line
    feeds are the text. *)
Theorem blocks_join_back (lesson_plan text : str) :
  join (lit "\n\n") (blocks lesson_plan) = lesson_plan /\
  join NL (split NL None text) = text.
Proof.
  split; apply join_split; discriminate.
Qed.

(** X2. In [main.py], for a body text with a line feed: when ReportLab
    accepts every trimmed line as a paragraph, the text flowable is a
    bullet list of at least two items, and every item is a paragraph in
    the bullet style whose text is one trimmed line and holds no line
    feed; when it refuses a line, the exception of the first such line is
    raised and there is no list. *)
Theorem bullet_items_are_single_lines {ext : Externals} (content : str) :
  contains NL (strip content) = true ->
  let lines := split NL None (strip content) in
  (first_error (map strip lines) = None ->
   exists items,
     Main.body_flowable content = inr (ListFlowable items (lit "bullet")) /\
     (2 <= List.length items)%nat /\
     Forall (fun item =>
               exists line,
                 In line lines /\
                 item = ListItem (Paragraph (strip line) Main.bullet_style) /\
                 ~ In 10%N (strip line))
            items) /\
  (forall e, first_error (map strip lines) = Some e ->
             Main.body_flowable content = inl e).
Proof.
  intros Hnl lines. subst lines.
  rewrite body_flowable_run. unfold body_texts, bullets_or_paragraph.
  rewrite Hnl. split.
  - intros ->. eexists. split; [reflexivity|]. split.
    + rewrite length_map. change NL with [10%N]. rewrite split_char_length.
      change NL with [10%N] in Hnl. apply contains_char_In in Hnl.
      apply (count_occ_In N.eq_dec) in Hnl. lia.
    + apply Forall_forall. intros item Hitem.
      apply in_map_iff in Hitem as (line & <- & Hline).
      exists line. repeat split; [exact Hline|].
      intros Hin. apply strip_incl in Hin.
      pose proof (split_char_free 10%N (strip content)) as Hfree.
      rewrite Forall_forall in Hfree. exact (Hfree line Hline Hin).
  - intros e ->. reflexivity.
Qed.

Lemma bullet_items_are_single_lines_witness :
  contains NL (strip (lit " World \n  Wide\n last ")) = true /\
  (exists items,
     @Main.body_flowable Sample.healthy (lit " World \n  Wide\n last ") =
       inr (ListFlowable items (lit "bullet")) /\
     (2 <= List.length items)%nat) /\
  @Main.body_flowable Sample.healthy (lit " World \n  <b>Wide\n last ") = inl ValueError.
Proof.
  split; [reflexivity|]. split.
  - destruct (proj1 (@bullet_items_are_single_lines Sample.healthy
                       (lit " World \n  Wide\n last ") eq_refl) eq_refl)
      as (items & Hlist & Hlen & _).
    exists items. split; assumption.
  - exact (proj2 (@bullet_items_are_single_lines Sample.healthy
                    (lit " World \n  <b>Wide\n last ") eq_refl) ValueError eq_refl).
Defined.

(* ================================================================== *)
(** * More about the assembler and the generators *)
(* ================================================================== *)

Section MoreFacts.
Context {ext : Externals}.

Lemma app_create_pdf_calls (plan : str) (w : log) :
  exists k,
    (k <= List.length (sections plan))%nat /\
    snd (App.create_pdf plan w) = w ++ map image_call (firstn k (sections plan)) /\
    (forall pdf, fst (App.create_pdf plan w) = inr pdf ->
                 k = List.length (sections plan)).
Proof.
  rewrite app_create_pdf_loop, app_loop_sections.
  destruct (assemble_calls App.section_body app_render app_texts
              app_section_colon image_generator_logs
              (sections plan) (sections_have_colon plan) title_block w)
    as (k & Hk & Hlog & Hall).
  exists k. split; [exact Hk|].
  destruct (for_each (sections plan) App.section_body title_block w)
    as [[e|story] w']; cbn [fst snd] in *.
  - split; [exact Hlog | discriminate].
  - split; [exact Hlog|]. intros _ _. now apply (Hall story).
Qed.

Lemma main_create_pdf_calls (plan : str) (w : log) :
  exists k,
    (k <= List.length (sections plan))%nat /\
    snd (Main.create_pdf plan w) = w ++ map image_call (firstn k (sections plan)) /\
    (forall pdf, fst (Main.create_pdf plan w) = inr pdf ->
                 k = List.length (sections plan)).
Proof.
  rewrite main_create_pdf_loop, main_loop_sections.
  destruct (assemble_calls Main.section_body main_render main_texts
              main_section_colon image_generator_logs
              (sections plan) (sections_have_colon plan) title_block w)
    as (k & Hk & Hlog & Hall).
  exists k. split; [exact Hk|].
  destruct (for_each (sections plan) Main.section_body title_block w)
    as [[e|story] w']; cbn [fst snd] in *.
  - split; [exact Hlog | discriminate].
  - split; [exact Hlog|]. intros _ _. now apply (Hall story).
Qed.

Lemma plan_generator_logs (p : program) (text : str) (w : log) :
  snd (generate_lesson_plan_of p text w) =
  w ++ [RequestsPost (chat_request_of p text)].
Proof.
  destruct p; cbn [generate_lesson_plan_of chat_request_of];
    [unfold App.generate_lesson_plan | unfold Main.generate_lesson_plan];
    run_monad.
  - destruct (requests_post w (App.chat_request text)) as [e|r]; [reflexivity|].
    split_result; reflexivity.
  - destruct (requests_post w (Main.chat_request text)) as [e|r]; [reflexivity|].
    split_result; reflexivity.
Qed.

(** The generator in terms of the answer to its request. *)
Lemma plan_generator_run (p : program) (text : str) (w : log) :
  fst (generate_lesson_plan_of p text w) =
  match requests_post w (chat_request_of p text) with
  | inl e => inl e
  | inr r =>
      if ((400 <=? status r) && (status r <? 600))%Z then inl (HTTPError (status r))
      else
        match body_json r with
        | inl e => inl e
        | inr payload =>
            match getitem_key payload (lit "choices") with
            | inl e => inl e
            | inr choices =>
                match getitem_0 choices with
                | inl e => inl e
                | inr choice =>
                    match getitem_key choice (lit "message") with
                    | inl e => inl e
                    | inr message =>
                        match getitem_key message (lit "content") with
                        | inl e => inl e
                        | inr answer =>
                            match as_str answer with
                            | inl e => inl e
                            | inr content => inr (strip content)
                            end
                        end
                    end
                end
            end
        end
  end.
Proof.
  destruct p; cbn [generate_lesson_plan_of chat_request_of];
    [unfold App.generate_lesson_plan | unfold Main.generate_lesson_plan];
    run_monad.
  - destruct (requests_post w (App.chat_request text)) as [e|r]; [reflexivity|].
    split_result; reflexivity.
  - destruct (requests_post w (Main.chat_request text)) as [e|r]; [reflexivity|].
    split_result; reflexivity.
Qed.

Lemma plan_generator_result (p : program) (text : str) (w : log) :
  generate_lesson_plan_of p text w =
  (fst (generate_lesson_plan_of p text w),
   w ++ [RequestsPost (chat_request_of p text)]).
Proof.
  rewrite <- plan_generator_logs. now destruct (generate_lesson_plan_of p text w).
Qed.

End MoreFacts.

(** X3. In every run of [create_pdf] of either program, failed or not,
    the calls made are the image calls of the first sections of the plan,
    one each and in the order of the sections, and nothing else is
    logged; a run that returns a document has made the calls of all
    sections. (The two programs may stop at different sections.) *)
Theorem create_pdf_calls_follow_the_sections
  {ext : Externals} (plan : str) (w : log) :
  (exists k,
     (k <= List.length (sections plan))%nat /\
     snd (App.create_pdf plan w) = w ++ map image_call (firstn k (sections plan)) /\
     (forall pdf, fst (App.create_pdf plan w) = inr pdf ->
                  k = List.length (sections plan))) /\
  (exists k,
     (k <= List.length (sections plan))%nat /\
     snd (Main.create_pdf plan w) = w ++ map image_call (firstn k (sections plan)) /\
     (forall pdf, fst (Main.create_pdf plan w) = inr pdf ->
                  k = List.length (sections plan))).
Proof.
  split; [apply app_create_pdf_calls | apply main_create_pdf_calls].
Qed.

Lemma create_pdf_calls_follow_the_sections_witness :
  (exists k,
     (k <= 3)%nat /\
     snd (@App.create_pdf Sample.flaky three_sections []) =
       map (@image_call Sample.flaky) (firstn k (sections three_sections))) /\
  snd (@Main.create_pdf Sample.healthy three_sections []) =
    map (@image_call Sample.healthy) (sections three_sections).
Proof.
  split.
  - destruct (proj1 (@create_pdf_calls_follow_the_sections Sample.flaky three_sections []))
      as (k & Hk & Hlog & _).
    exists k. split; [exact Hk | exact Hlog].
  - destruct (proj2 (@create_pdf_calls_follow_the_sections Sample.healthy three_sections []))
      as (n & _ & Hmain & Hall).
    rewrite Hmain. rewrite (Hall _ eq_refl). now rewrite firstn_all.
Defined.

(** X4. [generate_lesson_plan] of either program returns exactly when the
    answer to its request has a status outside 4xx/5xx and a JSON body
    with a string at choices[0].message.content; what it returns is that
    string trimmed, so the plan neither starts nor ends with whitespace;
    it makes the one request, and nothing else is logged. *)
Theorem lesson_plan_is_the_trimmed_completion
  {ext : Externals} (p : program) (text : str) (w : log) :
  let req := chat_request_of p text in
  (forall r content,
     requests_post w req = inr r -> completion_of r content ->
     generate_lesson_plan_of p text w = (inr (strip content), w ++ [RequestsPost req])) /\
  (forall plan w',
     generate_lesson_plan_of p text w = (inr plan, w') ->
     w' = w ++ [RequestsPost req] /\
     (exists r content,
        requests_post w req = inr r /\ completion_of r content /\
        plan = strip content) /\
     match plan with [] => True | x :: _ => isspace x = false end /\
     match rev plan with [] => True | x :: _ => isspace x = false end).
Proof.
  intros req. subst req. split.
  - intros r content Hr (Hs & payload & choices & choice & message & answer
                          & Hj & Hc & H0 & Hm & Ha & Hstr).
    rewrite plan_generator_result. f_equal.
    rewrite plan_generator_run, Hr, Hs, Hj, Hc, H0, Hm, Ha, Hstr. reflexivity.
  - intros plan w' Hrun. rewrite plan_generator_result in Hrun.
    injection Hrun as Hplan <-. split; [reflexivity|].
    rewrite plan_generator_run in Hplan.
    destruct (requests_post w (chat_request_of p text)) as [e|r] eqn:Hr;
      [discriminate|].
    destruct ((400 <=? status r) && (status r <? 600))%Z eqn:Hs; [discriminate|].
    destruct (body_json r) as [e|payload] eqn:Hj; [discriminate|].
    destruct (getitem_key payload (lit "choices")) as [e|choices] eqn:Hc;
      [discriminate|].
    destruct (getitem_0 choices) as [e|choice] eqn:H0; [discriminate|].
    destruct (getitem_key choice (lit "message")) as [e|message] eqn:Hm;
      [discriminate|].
    destruct (getitem_key message (lit "content")) as [e|answer] eqn:Ha;
      [discriminate|].
    destruct (as_str answer) as [e|content] eqn:Hstr; [discriminate|].
    injection Hplan as <-.
    destruct (strip_spec content) as (l & t & _ & _ & _ & Hfirst & Hlast).
    split; [|split; assumption].
    exists r, content. split; [reflexivity|]. split; [|reflexivity].
    split; [exact Hs|]. exists payload, choices, choice, message, answer.
    repeat split; assumption.
Qed.

Lemma lesson_plan_is_the_trimmed_completion_witness :
  @generate_lesson_plan_of Sample.healthy MainPy (lit "AB") [] =
  (inr (lit "Intro: Hello\n\nBody: World\nWide"),
   [RequestsPost (@Main.chat_request Sample.healthy (lit "AB"))]).
Proof.
  refine (proj1 (@lesson_plan_is_the_trimmed_completion Sample.healthy MainPy (lit "AB") [])
            (Response 200 (inr Sample.completion))
            (lit "  Intro: Hello\n\nBody: World\nWide\n") eq_refl _).
  split; [reflexivity|].
  exists Sample.completion. do 4 eexists.
  repeat split; reflexivity.
Defined.

(** X5. How [generate_lesson_plan] of either program fails. An exception
    of [requests.post] is passed on; a 4xx or 5xx status gives
    [HTTPError]; a body that is not JSON gives the decoder's exception; a
    JSON object without "choices" gives [KeyError] for that key; an empty
    "choices" list gives [IndexError]; a JSON list as body gives
    [TypeError]; a "content" that is not a string gives [AttributeError].
    In each case the one request has been made, and no answer without a
    usable completion makes it return. *)
Theorem lesson_plan_generator_errors
  {ext : Externals} (p : program) (text : str) (w : log) :
  let req := chat_request_of p text in
  let fails_with e :=
    generate_lesson_plan_of p text w = (inl e, w ++ [RequestsPost req]) in
  (forall e, requests_post w req = inl e -> fails_with e) /\
  (forall r, requests_post w req = inr r ->
     ((400 <=? status r) && (status r <? 600))%Z = true ->
     fails_with (HTTPError (status r))) /\
  (forall r, requests_post w req = inr r ->
     ((400 <=? status r) && (status r <? 600))%Z = false ->
     (forall e, body_json r = inl e -> fails_with e) /\
     (forall fields, body_json r = inr (JObject fields) ->
        dict_get (lit "choices") fields = None ->
        fails_with (KeyError (lit "choices"))) /\
     (forall fields, body_json r = inr (JObject fields) ->
        dict_get (lit "choices") fields = Some (JArray []) ->
        fails_with IndexError) /\
     (forall items, body_json r = inr (JArray items) -> fails_with TypeError) /\
     (forall fields message answer,
        body_json r = inr (JObject fields) ->
        dict_get (lit "choices") fields = Some (JArray [JObject message]) ->
        dict_get (lit "message") message = Some (JObject [(lit "content", answer)]) ->
        (forall s, answer <> JString s) ->
        fails_with AttributeError)) /\
  ((forall r content, requests_post w req = inr r -> ~ completion_of r content) ->
   exists e, fails_with e).
Proof.
  intros req fails_with. subst req fails_with. cbn beta.
  assert (Hfail : forall e, fst (generate_lesson_plan_of p text w) = inl e ->
                   generate_lesson_plan_of p text w =
                   (inl e, w ++ [RequestsPost (chat_request_of p text)])).
  { intros e He. rewrite plan_generator_result. now rewrite He. }
  split; [|split; [|split]].
  - intros e Hr. apply Hfail. now rewrite plan_generator_run, Hr.
  - intros r Hr Hs. apply Hfail. now rewrite plan_generator_run, Hr, Hs.
  - intros r Hr Hs. repeat split.
    + intros e Hj. apply Hfail. now rewrite plan_generator_run, Hr, Hs, Hj.
    + intros fields Hj Hc. apply Hfail.
      rewrite plan_generator_run, Hr, Hs, Hj. cbn [getitem_key]. now rewrite Hc.
    + intros fields Hj Hc. apply Hfail.
      rewrite plan_generator_run, Hr, Hs, Hj. cbn [getitem_key]. now rewrite Hc.
    + intros items Hj. apply Hfail. now rewrite plan_generator_run, Hr, Hs, Hj.
    + intros fields message answer Hj Hc Hm Hns. apply Hfail.
      rewrite plan_generator_run, Hr, Hs, Hj. cbn [getitem_key]. rewrite Hc.
      cbn [getitem_0 getitem_key]. rewrite Hm.
      cbn [getitem_key dict_get]. change (str_eqb (lit "content") (lit "content")) with true.
      cbn iota. destruct answer; try reflexivity. now destruct (Hns s).
  - intros Hbad.
    destruct (fst (generate_lesson_plan_of p text w)) as [e|plan] eqn:Hrun.
    + exists e. now apply Hfail.
    + pose proof (plan_generator_result p text w) as Hres. rewrite Hrun in Hres.
      rewrite plan_generator_run in Hrun.
      destruct (requests_post w (chat_request_of p text)) as [e|r] eqn:Hr;
        [discriminate|].
      destruct ((400 <=? status r) && (status r <? 600))%Z eqn:Hs; [discriminate|].
      destruct (body_json r) as [e|payload] eqn:Hj; [discriminate|].
      destruct (getitem_key payload (lit "choices")) as [e|choices] eqn:Hc;
        [discriminate|].
      destruct (getitem_0 choices) as [e|choice] eqn:H0; [discriminate|].
      destruct (getitem_key choice (lit "message")) as [e|message] eqn:Hm;
        [discriminate|].
      destruct (getitem_key message (lit "content")) as [e|answer] eqn:Ha;
        [discriminate|].
      destruct (as_str answer) as [e|content] eqn:Hstr; [discriminate|].
      destruct (Hbad r content eq_refl).
      split; [exact Hs|]. exists payload, choices, choice, message, answer.
      repeat split; assumption.
Qed.

Lemma lesson_plan_generator_errors_witness :
  @App.generate_lesson_plan Outage.silent (lit "AB") [] =
    (inl (KeyError (lit "choices")),
     [RequestsPost (@App.chat_request Outage.silent (lit "AB"))]) /\
  @Main.generate_lesson_plan Outage.down (lit "AB") [] =
    (inl (HTTPError 503),
     [RequestsPost (@Main.chat_request Outage.down (lit "AB"))]).
Proof.
  split.
  - destruct (@lesson_plan_generator_errors Outage.silent AppPy (lit "AB") [])
      as (_ & _ & Hbody & _).
    destruct (Hbody (Response 200 (inr (JObject []))) eq_refl eq_refl)
      as (_ & Hkey & _).
    exact (Hkey [] eq_refl eq_refl).
  - destruct (@lesson_plan_generator_errors Outage.down MainPy (lit "AB") [])
      as (_ & Hstatus & _).
    exact (Hstatus (Response 503 (inl ValueError)) eq_refl eq_refl).
Defined.

(* ================================================================== *)
(** * More about the endpoint, the extractors and the script *)
(* ================================================================== *)

Section EntryFacts.
Context {ext : Externals}.

Lemma app_extract_logs (stream : bytes) (w : log) :
  snd (App.extract_text_from_pdf stream w) = w ++ [FitzOpen stream].
Proof.
  destruct (parses_or_fails stream) as [[texts Hp] | [e Hf]].
  - now rewrite (app_extract_ok stream texts w Hp).
  - now rewrite (app_extract_fails stream e w Hf).
Qed.

Lemma app_plan_generator_result (text : str) (w : log) :
  App.generate_lesson_plan text w =
  (fst (App.generate_lesson_plan text w),
   w ++ [RequestsPost (App.chat_request text)]).
Proof. exact (plan_generator_result AppPy text w). Qed.

Lemma main_plan_generator_result (text : str) (w : log) :
  Main.generate_lesson_plan text w =
  (fst (Main.generate_lesson_plan text w),
   w ++ [RequestsPost (Main.chat_request text)]).
Proof. exact (plan_generator_result MainPy text w). Qed.

(** The endpoint after the test of the file name, stage by stage. *)
Lemma upload_stages (filename : str) (content : bytes) (w : log) :
  endswith (lit ".pdf") filename = true ->
  App.upload_and_generate_plan filename content w =
  match App.extract_text_from_pdf content w with
  | (inl e, w1) => (inl e, w1)
  | (inr text, w1) =>
      match App.generate_lesson_plan text w1 with
      | (inl e, w2) => (inl e, w2)
      | (inr plan, w2) =>
          match App.create_pdf plan w2 with
          | (inl e, w3) => (inl e, w3)
          | (inr pdf, w3) =>
              (inr (App.StreamingResponse pdf (lit "application/pdf")
                      [(lit "Content-Disposition",
                        lit "attachment; filename=lesson_plan.pdf")]), w3)
          end
      end
  end.
Proof.
  intros Hname. unfold App.upload_and_generate_plan. rewrite Hname.
  cbn [negb]. unfold bind, ret.
  destruct (App.extract_text_from_pdf content w) as [[e|text] w1]; [reflexivity|].
  destruct (App.generate_lesson_plan text w1) as [[e|plan] w2]; [reflexivity|].
  destruct (App.create_pdf plan w2) as [[e|pdf] w3]; reflexivity.
Qed.

Lemma upload_log_starts (filename : str) (content : bytes) (w : log) :
  endswith (lit ".pdf") filename = true ->
  exists rest,
    snd (App.upload_and_generate_plan filename content w) =
    w ++ FitzOpen content :: rest.
Proof.
  intros Hname. rewrite (upload_stages filename content w Hname).
  pose proof (app_extract_logs content w) as Hx.
  destruct (App.extract_text_from_pdf content w) as [[e|text] w1];
    cbn [snd] in Hx; subst w1.
  - now exists [].
  - rewrite app_plan_generator_result.
    destruct (fst (App.generate_lesson_plan text (w ++ [FitzOpen content])))
      as [e|plan].
    + exists [RequestsPost (App.chat_request text)]. cbn [snd].
      now rewrite <- app_assoc.
    + destruct (app_create_pdf_calls plan
                  ((w ++ [FitzOpen content]) ++ [RequestsPost (App.chat_request text)]))
        as (k & _ & Hlog & _).
      exists (RequestsPost (App.chat_request text)
                :: map image_call (firstn k (sections plan))).
      destruct (App.create_pdf plan _) as [[e|pdf] w3]; cbn [snd] in Hlog |- *;
        subst w3; now rewrite <- !app_assoc.
Qed.

Lemma endswith_suffix (suf s : str) :
  endswith suf s = true <-> exists stem, s = stem ++ suf.
Proof.
  unfold endswith. rewrite startswith_prefix. split.
  - intros (rest & E). exists (rev rest).
    apply (f_equal (@rev N)) in E. rewrite rev_involutive in E.
    now rewrite E, rev_app_distr, rev_involutive.
  - intros (stem & ->). exists (rev stem). apply rev_app_distr.
Qed.

End EntryFacts.

(** X6. For an upload named "*.pdf" whose stream parses, the endpoint
    logs the extraction, then one chat request for the extracted text
    (an empty text too), then image calls for the first sections of the
    plan and nothing else; every request carries the Authorization header.
    If the generator raises, that exception is the result and no image
    call is made; if generator and assembler return, the result is the
    document as "application/pdf" with the download file name. *)
Theorem upload_requests_in_stage_order
  {ext : Externals} (filename : str) (content : bytes) (texts : list str) (w : log) :
  endswith (lit ".pdf") filename = true ->
  parses content texts ->
  let text := List.concat texts in
  let w1 := w ++ [FitzOpen content] in
  exists calls,
    snd (App.upload_and_generate_plan filename content w) =
      w ++ FitzOpen content :: RequestsPost (App.chat_request text) :: calls /\
    Forall (fun ev => exists req, ev = RequestsPost req /\
                                  url req = App.image_url /\
                                  headers req = headers (App.chat_request text) /\
                                  headers req =
                                    [(lit "Authorization", lit "Bearer " ++ deep_infra_api_key)])
           calls /\
    (forall e w2,
       App.generate_lesson_plan text w1 = (inl e, w2) ->
       calls = [] /\ fst (App.upload_and_generate_plan filename content w) = inl e) /\
    (forall plan w2,
       App.generate_lesson_plan text w1 = (inr plan, w2) ->
       (exists k, (k <= List.length (sections plan))%nat /\
                  calls = map image_call (firstn k (sections plan))) /\
       (forall pdf w3,
          App.create_pdf plan w2 = (inr pdf, w3) ->
          fst (App.upload_and_generate_plan filename content w) =
          inr (App.StreamingResponse pdf (lit "application/pdf")
                 [(lit "Content-Disposition",
                   lit "attachment; filename=lesson_plan.pdf")]))).
Proof.
  intros Hname Hp text w1. subst text w1.
  rewrite (upload_stages filename content w Hname).
  rewrite (app_extract_ok content texts w Hp).
  set (text := List.concat texts). set (w1 := w ++ [FitzOpen content]).
  rewrite (app_plan_generator_result text w1).
  destruct (fst (App.generate_lesson_plan text w1)) as [e|plan].
  - exists []. cbn [snd fst]. unfold w1. rewrite <- app_assoc.
    split; [reflexivity|]. split; [constructor|]. split.
    + intros e' w2 Hrun. injection Hrun as <- _. now split.
    + intros plan w2 Hrun. discriminate Hrun.
  - set (w2 := w1 ++ [RequestsPost (App.chat_request text)]).
    destruct (app_create_pdf_calls plan w2) as (k & Hk & Hlog & _).
    exists (map image_call (firstn k (sections plan))).
    split; [|split; [|split]].
    + destruct (App.create_pdf plan w2) as [[e|pdf] w3]; cbn [snd] in Hlog |- *;
        subst w3; unfold w2, w1; now rewrite <- !app_assoc.
    + apply Forall_forall. intros ev Hev.
      apply in_map_iff in Hev as (b & <- & _).
      exists (App.image_request (body_of b)). repeat split.
    + intros e w2' Hrun. discriminate Hrun.
    + intros plan' w2' Hrun. injection Hrun as <- <-. split.
      * exists k. now split.
      * intros pdf w3 Hpdf. fold w2. now rewrite Hpdf.
Qed.

Lemma upload_requests_in_stage_order_witness :
  exists calls,
    snd (@App.upload_and_generate_plan Outage.down (lit "empty.pdf") [x00] []) =
      [] ++ FitzOpen [x00]
         :: RequestsPost (@App.chat_request Outage.down []) :: calls /\
    calls = [] /\
    fst (@App.upload_and_generate_plan Outage.down (lit "empty.pdf") [x00] []) =
      inl (HTTPError 503).
Proof.
  destruct (@upload_requests_in_stage_order Outage.down (lit "empty.pdf") [x00] [[]] []
              eq_refl)
    as (calls & Hlog & _ & Hfail & _).
  { exists [[]]. split; [reflexivity | repeat constructor]. }
  exists calls. split; [exact Hlog|].
  eapply Hfail. reflexivity.
Defined.

(** X7. The Streamlit script never lets an exception out: every run ends
    normally. When the generator raises, or the assembler raises after a
    click, the run ends by showing "An error occurred: " and the message
    of that exception with [st.error]. *)
Theorem script_never_raises
  {ext : Externals} (uploaded_file : option bytes) (clicked : bool) (w : log) :
  fst (Main.script uploaded_file clicked w) = inr tt /\
  (forall stream text w1 e w2,
     uploaded_file = Some stream ->
     Main.extract_text_from_pdf stream w = (inr text, w1) ->
     truthy text = true ->
     Main.generate_lesson_plan text w1 = (inl e, w2) ->
     Main.script uploaded_file clicked w =
     (inr tt, w2 ++ [StError (lit "An error occurred: " ++ str_exn e)])) /\
  (forall stream text w1 plan w2 e w3,
     uploaded_file = Some stream ->
     clicked = true ->
     Main.extract_text_from_pdf stream w = (inr text, w1) ->
     truthy text = true ->
     Main.generate_lesson_plan text w1 = (inr plan, w2) ->
     Main.create_pdf plan
       (w2 ++ [StTextArea (lit "Generated Lesson Plan") plan 400;
               StButton (lit "Download Lesson Plan as PDF")]) = (inl e, w3) ->
     Main.script uploaded_file clicked w =
     (inr tt, w3 ++ [StError (lit "An error occurred: " ++ str_exn e)])).
Proof.
  split; [|split].
  - destruct uploaded_file as [stream|]; [|reflexivity].
    unfold Main.script, try_except, bind, emit, ret.
    destruct (Main.extract_text_from_pdf stream w) as [[e|text] w1]; [reflexivity|].
    destruct (truthy text); [|reflexivity].
    destruct (Main.generate_lesson_plan text w1) as [[e|plan] w2]; [reflexivity|].
    destruct clicked; [|reflexivity].
    destruct (Main.create_pdf plan _) as [[e|pdf] w3]; reflexivity.
  - intros stream text w1 e w2 -> Hx Ht Hg.
    unfold Main.script, try_except, bind, emit. now rewrite Hx, Ht, Hg.
  - intros stream text w1 plan w2 e w3 -> -> Hx Ht Hg Hc.
    unfold Main.script, try_except, bind, emit. rewrite Hx, Ht, Hg.
    rewrite <- app_assoc. cbn [app]. now rewrite Hc.
Qed.

Lemma script_never_raises_witness :
  @Main.script Outage.down (Some [x41]) true [] =
  (inr tt,
   [FitzOpen [x41];
    RequestsPost (@Main.chat_request Outage.down (lit "A"));
    StError (lit "An error occurred: error")]).
Proof.
  exact (proj1 (proj2 (@script_never_raises Outage.down (Some [x41]) true []))
           [x41] (lit "A") [FitzOpen [x41]] (HTTPError 503)
           [FitzOpen [x41]; RequestsPost (@Main.chat_request Outage.down (lit "A"))]
           eq_refl eq_refl eq_refl eq_refl).
Defined.

(** X8. Whatever PyMuPDF does with a stream, the extractor of [app.py]
    raises nothing but an [HTTPException] of status 500 whose detail is
    "PDF extraction failed: " and the message of the cause, and logs the
    one call to PyMuPDF; the extractor of [main.py] never raises, and
    returns what the extractor of [app.py] returns whenever that one
    returns. *)
Theorem extractors_contain_library_errors
  {ext : Externals} (stream : bytes) (w : log) :
  snd (App.extract_text_from_pdf stream w) = w ++ [FitzOpen stream] /\
  (forall e, fst (App.extract_text_from_pdf stream w) = inl e ->
     exists cause,
       parse_fails stream cause /\
       e = HTTPException 500 (lit "PDF extraction failed: " ++ str_exn cause)) /\
  (exists text, fst (Main.extract_text_from_pdf stream w) = inr text) /\
  (forall text, fst (App.extract_text_from_pdf stream w) = inr text ->
     Main.extract_text_from_pdf stream w = App.extract_text_from_pdf stream w).
Proof.
  split; [apply app_extract_logs|].
  destruct (parses_or_fails stream) as [[texts Hp] | [cause Hf]].
  - rewrite (app_extract_ok stream texts w Hp), (main_extract_ok stream texts w Hp).
    split; [intros e He; discriminate He|].
    split; [now exists (List.concat texts) | reflexivity].
  - rewrite (app_extract_fails stream cause w Hf), (main_extract_fails stream cause w Hf).
    split; [|split].
    + intros e [= <-]. now exists cause.
    + now exists [].
    + intros text Htext. discriminate Htext.
Qed.

Lemma extractors_contain_library_errors_witness :
  exists cause,
    @parse_fails Sample.healthy [] cause /\
    HTTPException 500 (lit "PDF extraction failed: cannot open empty document") =
    HTTPException 500 (lit "PDF extraction failed: " ++ Sample.message cause).
Proof.
  exact (proj1 (proj2 (@extractors_contain_library_errors Sample.healthy [] []))
           (HTTPException 500 (lit "PDF extraction failed: cannot open empty document"))
           eq_refl).
Defined.

(** X9. A run of the script without a click on the download button sends
    no image request and offers no download: the only request it can send
    is the chat request for a text that is not empty. *)
Theorem script_without_click_generates_no_image
  {ext : Externals} (stream : bytes) (w : log) :
  exists new,
    snd (Main.script (Some stream) false w) = w ++ new /\
    (forall req, In (RequestsPost req) new ->
       exists text, req = Main.chat_request text /\ text <> []) /\
    (forall label data file_name mime,
       ~ In (StDownloadButton label data file_name mime) new).
Proof.
  unfold Main.script, try_except, bind, emit, ret.
  destruct (parses_or_fails stream) as [[texts Hp] | [cause Hf]].
  - rewrite (main_extract_ok stream texts w Hp).
    destruct (List.concat texts) as [|c text'] eqn:Htext; cbn [truthy].
    + exists [FitzOpen stream]. split; [reflexivity|]. split.
      * intros req [E|[]]; discriminate E.
      * intros label data file_name mime [E|[]]; discriminate E.
    + rewrite main_plan_generator_result.
      destruct (fst (Main.generate_lesson_plan (c :: text') (w ++ [FitzOpen stream])))
        as [e|plan]; cbn [snd].
      * exists [FitzOpen stream; RequestsPost (Main.chat_request (c :: text'));
                StError (lit "An error occurred: " ++ str_exn e)].
        split; [now rewrite <- !app_assoc|]. split.
        -- intros req [E|[E|[E|[]]]]; try discriminate E.
           injection E as <-. exists (c :: text'). split; [reflexivity | discriminate].
        -- intros label data file_name mime [E|[E|[E|[]]]]; discriminate E.
      * exists [FitzOpen stream; RequestsPost (Main.chat_request (c :: text'));
                StTextArea (lit "Generated Lesson Plan") plan 400;
                StButton (lit "Download Lesson Plan as PDF")].
        split; [now rewrite <- !app_assoc|]. split.
        -- intros req [E|[E|[E|[E|[]]]]]; try discriminate E.
           injection E as <-. exists (c :: text'). split; [reflexivity | discriminate].
        -- intros label data file_name mime [E|[E|[E|[E|[]]]]]; discriminate E.
  - rewrite (main_extract_fails stream cause w Hf). cbn [truthy snd].
    exists [FitzOpen stream; StError (lit "PDF extraction failed: " ++ str_exn cause)].
    split; [reflexivity|]. split.
    + intros req [E|[E|[]]]; discriminate E.
    + intros label data file_name mime [E|[E|[]]]; discriminate E.
Qed.

Lemma script_without_click_generates_no_image_witness :
  exists new,
    snd (@Main.script Sample.healthy (Some [x41]) false []) = [] ++ new /\
    (In (RequestsPost (@Main.chat_request Sample.healthy (lit "A"))) new ->
     exists text, @Main.chat_request Sample.healthy (lit "A") =
                  @Main.chat_request Sample.healthy text /\ text <> []).
Proof.
  destruct (@script_without_click_generates_no_image Sample.healthy [x41] [])
    as (new & Hlog & Hreq & _).
  exists new. split; [exact Hlog|]. apply Hreq.
Defined.

(** X10. The endpoint accepts exactly the file names that are some stem
    followed by ".pdf" (".pdf" alone too, and in lower case only), and it
    calls PyMuPDF on the upload exactly for those names. *)
Theorem upload_extracts_exactly_for_pdf_names
  {ext : Externals} (filename : str) (content : bytes) (w : log) :
  (endswith (lit ".pdf") filename = true <->
   exists stem, filename = stem ++ lit ".pdf") /\
  ((exists stem, filename = stem ++ lit ".pdf") <->
   exists rest,
     snd (App.upload_and_generate_plan filename content w) =
     w ++ FitzOpen content :: rest) /\
  endswith (lit ".pdf") (lit ".pdf") = true /\
  endswith (lit ".pdf") (lit "CHAPTER.PDF") = false.
Proof.
  split; [apply endswith_suffix|]. split; [|split; reflexivity].
  rewrite <- endswith_suffix. split.
  - apply upload_log_starts.
  - intros (rest & Hlog).
    destruct (endswith (lit ".pdf") filename) eqn:Hname; [reflexivity|].
    unfold App.upload_and_generate_plan in Hlog. rewrite Hname in Hlog.
    cbn in Hlog. rewrite <- (app_nil_r w) in Hlog at 1.
    apply app_inv_head in Hlog. discriminate Hlog.
Qed.

Lemma upload_extracts_exactly_for_pdf_names_witness :
  exists rest,
    snd (@App.upload_and_generate_plan Sample.healthy (lit "a.b.pdf") [] []) =
    [] ++ FitzOpen [] :: rest.
Proof.
  apply (proj1 (proj1 (proj2 (@upload_extracts_exactly_for_pdf_names
                                 Sample.healthy (lit "a.b.pdf") [] [])))).
  exists (lit "a.b"). reflexivity.
Defined.

(** X11. The prompt of either program holds the extracted text whole and
    unchanged between a fixed head and a fixed tail: its length is the
    length of the text plus 2174 ([app.py]) or 1690 ([main.py]), two
    texts with the same prompt are the same text, and the two programs
    never send the same prompt. *)
Theorem prompt_holds_the_text_verbatim (text other : str) :
  List.length (App.prompt text) = (List.length text + 2174)%nat /\
  List.length (Main.prompt text) = (List.length text + 1690)%nat /\
  (App.prompt text = App.prompt other -> text = other) /\
  (Main.prompt text = Main.prompt other -> text = other) /\
  App.prompt text <> Main.prompt other.
Proof.
  unfold App.prompt, Main.prompt. repeat split.
  - rewrite !length_app.
    change (List.length App.prompt_head) with 60%nat.
    change (List.length App.prompt_tail) with 2114%nat. lia.
  - rewrite !length_app.
    change (List.length Main.prompt_head) with 55%nat.
    change (List.length Main.prompt_tail) with 1635%nat. lia.
  - intros E. apply app_inv_head in E. now apply app_inv_tail in E.
  - intros E. apply app_inv_head in E. now apply app_inv_tail in E.
  - intros E. apply (f_equal (fun s => nth_error s 5)) in E.
    rewrite !nth_error_app1 in E; [discriminate E | | ];
      [change (List.length Main.prompt_head) with 55%nat; lia
      | change (List.length App.prompt_head) with 60%nat; lia].
Qed.

Lemma prompt_holds_the_text_verbatim_witness :
  App.prompt (lit "AB") = App.prompt (lit "AB") /\ lit "AB" = lit "AB".
Proof.
  split; [reflexivity|].
  exact (proj1 (proj2 (proj2 (prompt_holds_the_text_verbatim (lit "AB") (lit "AB"))))
           eq_refl).
Defined.

Section DataUriFacts.
Context {ext : Externals}.

(** The pieces of a split on one character, piece by piece. *)
Lemma split_char_step (c : char) (s : str) :
  split [c] None s =
  if existsb (N.eqb c) s
  then before c s :: split [c] None (after c s)
  else [s].
Proof.
  unfold split. induction s as [|x s IH]; [reflexivity|].
  cbn [split_from may_split andb existsb before after].
  rewrite startswith_char. destruct (N.eqb_spec c x) as [->|Hne].
  - reflexivity.
  - cbn [orb]. rewrite IH. destruct (existsb (N.eqb c) s); reflexivity.
Qed.

Lemma before_all (c : char) (s : str) :
  existsb (N.eqb c) s = false -> before c s = s.
Proof.
  induction s as [|x s IH]; [reflexivity|]. cbn [existsb before].
  destruct (c =? x)%N; [discriminate|]. intros Hs. f_equal. now apply IH.
Qed.

(** [data_uri.split(",")[1]] *)
Lemma second_piece (s : str) :
  nth_error (split COMMA None s) 1 =
  if existsb (N.eqb 44%N) s then Some (before 44%N (after 44%N s)) else None.
Proof.
  change COMMA with [44%N]. rewrite split_char_step.
  destruct (existsb (N.eqb 44%N) s); [|reflexivity].
  cbn [nth_error]. rewrite split_char_step.
  destruct (existsb (N.eqb 44%N) (after 44%N s)) eqn:Hrest; [reflexivity|].
  cbn [nth_error]. f_equal. symmetry. now apply before_all.
Qed.

(** The generator in terms of the answer to its request. *)
Lemma image_generator_run (text : str) (w : log) :
  fst (App.generate_image_from_text text w) =
  match requests_post w (App.image_request text) with
  | inl e => inl e
  | inr r =>
      if ((400 <=? status r) && (status r <? 600))%Z then inl (HTTPError (status r))
      else
        match body_json r with
        | inl e => inl e
        | inr payload =>
            match getitem_key payload (lit "images") with
            | inl e => inl e
            | inr images =>
                match getitem_0 images with
                | inl e => inl e
                | inr first =>
                    match as_str first with
                    | inl e => inl e
                    | inr data_uri =>
                        match nth_error (split COMMA None data_uri) 1 with
                        | None => inl IndexError
                        | Some piece =>
                            match b64decode piece with
                            | inl e => inl e
                            | inr data => pil_save_png data
                            end
                        end
                    end
                end
            end
        end
  end.
Proof.
  unfold App.generate_image_from_text. run_monad.
  destruct (requests_post w (App.image_request text)) as [e|r]; [reflexivity|].
  destruct ((400 <=? status r) && (status r <? 600))%Z; [reflexivity|].
  cbn beta iota.
  destruct (body_json r) as [e|payload]; [reflexivity|].
  destruct (getitem_key payload (lit "images")) as [e|images]; [reflexivity|].
  destruct (getitem_0 images) as [e|first]; [reflexivity|].
  destruct (as_str first) as [e|data_uri]; [reflexivity|].
  destruct (nth_error (split COMMA None data_uri) 1) as [piece|]; [|reflexivity].
  destruct (b64decode piece) as [e|data]; [reflexivity|].
  destruct (pil_save_png data) as [e|png]; reflexivity.
Qed.

End DataUriFacts.

(** X12. Of an answer of the image service the generator uses the first
    entry of "images" and nothing after it, and of that string the part
    between its first comma and its second one (or its end): that part is
    base64-decoded and re-encoded as PNG. A first entry without a comma
    gives [IndexError], an empty "images" list gives [IndexError], an
    answer without "images" gives [KeyError]. *)
Theorem image_is_the_part_after_the_first_comma
  {ext : Externals} (text : str) (w : log) (r : response)
  (fields : list (str * json)) :
  requests_post w (App.image_request text) = inr r ->
  ((400 <=? status r) && (status r <? 600))%Z = false ->
  body_json r = inr (JObject fields) ->
  (forall data_uri others,
     dict_get (lit "images") fields = Some (JArray (JString data_uri :: others)) ->
     (In 44%N data_uri ->
      fst (App.generate_image_from_text text w) =
      match b64decode (before 44%N (after 44%N data_uri)) with
      | inl e => inl e
      | inr data => pil_save_png data
      end) /\
     (~ In 44%N data_uri ->
      fst (App.generate_image_from_text text w) = inl IndexError)) /\
  (dict_get (lit "images") fields = Some (JArray []) ->
   fst (App.generate_image_from_text text w) = inl IndexError) /\
  (dict_get (lit "images") fields = None ->
   fst (App.generate_image_from_text text w) = inl (KeyError (lit "images"))).
Proof.
  intros Hr Hs Hj. rewrite image_generator_run, Hr, Hs, Hj. cbn [getitem_key].
  split; [|split].
  - intros data_uri others ->. cbn [getitem_0 as_str]. rewrite second_piece.
    split; intros Hcomma.
    + replace (existsb (N.eqb 44%N) data_uri) with true; [reflexivity|].
      symmetry. rewrite <- contains_char. now apply contains_char_In.
    + replace (existsb (N.eqb 44%N) data_uri) with false; [reflexivity|].
      symmetry. rewrite <- contains_char.
      destruct (contains [44%N] data_uri) eqn:E; [|reflexivity].
      apply contains_char_In in E. contradiction.
  - intros ->. reflexivity.
  - intros ->. reflexivity.
Qed.

Lemma image_is_the_part_after_the_first_comma_witness :
  fst (@App.generate_image_from_text Sample.healthy (lit "a,b") []) =
  inr [x61].
Proof.
  destruct (@image_is_the_part_after_the_first_comma Sample.healthy (lit "a,b") []
              (Response 200 (inr (Sample.picture (@App.image_request Sample.healthy (lit "a,b")))))
              [(lit "images", JArray [JString (lit "data:image/png;base64,a,b")])]
              eq_refl eq_refl eq_refl)
    as (Huse & _).
  destruct (Huse (lit "data:image/png;base64,a,b") [] eq_refl) as (Hcomma & _).
  rewrite Hcomma; [reflexivity|].
  cbv. do 21 right. left. reflexivity.
Defined.

(** X13. When extraction gives a text that is not empty, the generator
    returns a plan and the button is clicked, the script shows the plan in
    the text area and the button first, then assembles the document from
    that same plan, and ends by offering that document for download as
    "lesson_plan.pdf" of type "application/pdf". *)
Theorem script_offers_the_assembled_document
  {ext : Externals} (stream : bytes) (w w1 w2 w3 : log)
  (text plan : str) (pdf : pdf_buffer) :
  Main.extract_text_from_pdf stream w = (inr text, w1) ->
  text <> [] ->
  Main.generate_lesson_plan text w1 = (inr plan, w2) ->
  Main.create_pdf plan
    (w2 ++ [StTextArea (lit "Generated Lesson Plan") plan 400;
            StButton (lit "Download Lesson Plan as PDF")]) = (inr pdf, w3) ->
  Main.script (Some stream) true w =
    (inr tt,
     w3 ++ [StDownloadButton (lit "Download PDF") pdf
              (lit "lesson_plan.pdf") (lit "application/pdf")]) /\
  Main.script (Some stream) false w =
    (inr tt,
     w2 ++ [StTextArea (lit "Generated Lesson Plan") plan 400;
            StButton (lit "Download Lesson Plan as PDF")]).
Proof.
  intros Hx Ht Hg Hc.
  assert (Htruthy : truthy text = true) by (destruct text; [congruence | reflexivity]).
  unfold Main.script, try_except, bind, emit, ret.
  rewrite Hx, Htruthy, Hg, <- app_assoc. cbn [app]. now rewrite Hc.
Qed.

Lemma script_offers_the_assembled_document_witness :
  exists pdf w3,
    @Main.script Sample.healthy (Some [x41]) true [] =
    (inr tt,
     w3 ++ [StDownloadButton (lit "Download PDF") pdf
              (lit "lesson_plan.pdf") (lit "application/pdf")]) /\
    List.length w3 = 6%nat.
Proof.
  eexists. eexists. split.
  - refine (proj1 (@script_offers_the_assembled_document Sample.healthy [x41] []
                     [FitzOpen [x41]] _ _ (lit "A") _ _ eq_refl _ eq_refl eq_refl)).
    discriminate.
  - reflexivity.
Defined.
